(** * Club task management (app1.py): hierarchy, credentials, task updates

    A shallow embedding of the non-presentational code of [src/app1.py]:
    the pandas frames the program loads from [club_tasks.xlsx], the helper
    functions [load_data], [update_tasks_sheet], [get_subordinates],
    [authenticate_user], [register_user] and [generate_unique_taskid], the
    parts of [show_dashboard] that filter the task table and handle the
    "Add Task", "Update Status" and "Delete Task" forms, the submitted forms
    of [show_login_page] and [show_register_page], and the routing of
    [main].

    Conventions of the model.
    - A Python [str] is a Rocq [string], one character per code point below
      256.
    - A cell of a frame is a string, an integer, or missing ([NaN]); floats
      with a fractional part, dates and booleans are left out, and so are
      column dtypes.
    - A row is a finite map from column labels to cells. A label that is a
      column of the frame but has no entry in a row reads as [NaN], which is
      what [pd.concat] and [DataFrame(list_of_dicts)] produce for absent
      keys. Entries of a row under labels that are not columns of the frame
      are never read.
    - Column labels are assumed unique within a frame. *)

From Stdlib Require Import ZArith String Ascii DecimalString.
From stdpp Require Import base option list strings gmap.

Open Scope string_scope.

(** ** Cells and the two pandas notions of equality *)

Inductive value :=
| VStr (s : string)
| VInt (n : Z)
| VNaN.

#[global] Instance value_eq_dec : EqDecision value.
Proof. solve_decision. Defined.

(** Element-wise [==] of pandas/numpy: a missing cell equals nothing, not
    even another missing cell. *)
Definition cell_eqb (a b : value) : bool :=
  match a, b with
  | VStr s, VStr t => bool_decide (s = t)
  | VInt m, VInt n => bool_decide (m = n)
  | _, _ => false
  end.

(** Membership as [Series.isin] computes it: hash-table membership, under
    which a missing cell does match a missing entry of the list. *)
Definition isin_val (v : value) (vs : list value) : bool :=
  bool_decide (v ∈ vs).

(** ** Frames *)

Record DataFrame := mkDF {
  columns : list string;
  rows : list (gmap string value)
}.

Definition cell (r : gmap string value) (c : string) : value :=
  default VNaN (r !! c).

(** [df.empty]: true when either axis has length 0. *)
Definition empty (df : DataFrame) : bool :=
  match rows df, columns df with
  | [], _ | _, [] => true
  | _, _ => false
  end.

(** ** Exceptions *)

Inductive exn :=
| KeyError (label : string)
| IndexError (text : string).

Inductive result (A : Type) :=
| Ok (a : A)
| Raise (e : exn).
Arguments Ok {A} a.
Arguments Raise {A} e.

(** Sequencing: an exception raised by the first computation skips the
    rest. Written [x ← m; k] below. *)
#[global] Instance result_ret : MRet result := λ A a, Ok a.
#[global] Instance result_bind : MBind result := λ A B k m,
  match m with
  | Ok a => k a
  | Raise e => Raise e
  end.

(** [try: body except Exception: return fallback] *)
Definition try_except {A} (body : result A) (fallback : A) : A :=
  match body with
  | Ok a => a
  | Raise _ => fallback
  end.

(** ** The pandas operations the program uses *)

Definition has_column (df : DataFrame) (c : string) : bool :=
  bool_decide (c ∈ columns df).

(** [df[c]]: the cells of column [c] in row order; [KeyError] when the
    frame has no such column. *)
Definition col (df : DataFrame) (c : string) : result (list value) :=
  if has_column df c then Ok ((λ r, cell r c) <$> rows df) else Raise (KeyError c).

(** [series == v] *)
Definition eq_mask (s : list value) (v : value) : list bool :=
  (fun x => cell_eqb x v) <$> s.

(** [series.isin(vs)] *)
Definition isin (s : list value) (vs : list value) : list bool :=
  (fun x => isin_val x vs) <$> s.

(** [m1 & m2] and [m1 | m2] on boolean series of one frame *)
Definition mask_and (m1 m2 : list bool) : list bool := zip_with andb m1 m2.
Definition mask_or (m1 m2 : list bool) : list bool := zip_with orb m1 m2.

(** The rows kept by a boolean mask. *)
Fixpoint keep {A} (l : list A) (m : list bool) : list A :=
  match l, m with
  | x :: l', b :: m' => if b then x :: keep l' m' else keep l' m'
  | _, _ => []
  end.

(** [df[mask]] *)
Definition select (df : DataFrame) (m : list bool) : DataFrame :=
  mkDF (columns df) (keep (rows df) m).

(** [series.iloc[0]] on a series known to be non-empty *)
Definition iloc0 (s : list value) : value := default VNaN (head s).

(** ** get_subordinates (lines 57-98) *)

Definition get_subordinates_body (member_name : string) (members_df : DataFrame)
  : result (list value) :=
  names ← col members_df "Name";
  let member_row := select members_df (eq_mask names (VStr member_name)) in
  if empty member_row then Ok []
  else
    member_roles ← col member_row "Role";
    let member_role := iloc0 member_roles in
    if cell_eqb member_role (VStr "Core Head") then
      let allowed_roles := [VStr "Domain Head"; VStr "Core Head"] in
      roles ← col members_df "Role";
      col (select members_df (isin roles allowed_roles)) "Name"
    else if cell_eqb member_role (VStr "Domain Head") then
      if has_column members_df "Domain" then
        domains ← col member_row "Domain";
        let domain := iloc0 domains in
        roles ← col members_df "Role";
        all_domains ← col members_df "Domain";
        col (select members_df
               (mask_and (eq_mask roles (VStr "Associate Head"))
                         (eq_mask all_domains domain))) "Name"
      else
        roles ← col members_df "Role";
        col (select members_df (eq_mask roles (VStr "Associate Head"))) "Name"
    else if cell_eqb member_role (VStr "Associate Head") then
      if has_column members_df "ReportsTo" then
        roles ← col members_df "Role";
        reports ← col members_df "ReportsTo";
        col (select members_df
               (mask_and (eq_mask roles (VStr "Junior Head"))
                         (eq_mask reports (VStr member_name)))) "Name"
      else
        roles ← col members_df "Role";
        col (select members_df (eq_mask roles (VStr "Junior Head"))) "Name"
    else Ok [].

Definition get_subordinates (member_name : string) (members_df : DataFrame)
  : list value :=
  if empty members_df then []
  else try_except (get_subordinates_body member_name members_df) [].

(** ** Strings: the Python [str] methods the program calls *)

(** [str.isspace] on one character: TAB..CR, FS..US, space, NEL, NBSP. *)
Definition is_space (c : ascii) : bool :=
  let n := N_of_ascii c in
  ((9 <=? n) && (n <=? 13) || (28 <=? n) && (n <=? 32)
   || (n =? 133) || (n =? 160))%N.

Fixpoint lstrip (s : string) : string :=
  match s with
  | String c s' => if is_space c then lstrip s' else s
  | EmptyString => EmptyString
  end.

(** [rstrip]: a whitespace character is dropped when nothing but
    whitespace follows it. *)
Fixpoint rstrip (s : string) : string :=
  match s with
  | String c s' =>
      match rstrip s' with
      | EmptyString => if is_space c then EmptyString else String c EmptyString
      | t => String c t
      end
  | EmptyString => EmptyString
  end.

(** [s.strip()] *)
Definition strip (s : string) : string := rstrip (lstrip s).

(** Truth value of a [str]: non-empty. *)
Definition truthy (s : string) : bool :=
  match s with EmptyString => false | _ => true end.

(** [str.lower] on one character: A-Z and the Latin-1 capitals. *)
Definition lower_char (c : ascii) : ascii :=
  let n := N_of_ascii c in
  if ((65 <=? n) && (n <=? 90)
      || (192 <=? n) && (n <=? 222) && negb (n =? 215))%N
  then ascii_of_N (n + 32) else c.

Fixpoint lower (s : string) : string :=
  match s with
  | String c s' => String (lower_char c) (lower s')
  | EmptyString => EmptyString
  end.

(** [c in t] for a one-character [c] *)
Fixpoint char_in (c : ascii) (t : string) : bool :=
  match t with
  | String d t' => Ascii.eqb c d || char_in c t'
  | EmptyString => false
  end.

(** [all(p(c) for c in s)] *)
Fixpoint all_chars (p : ascii → bool) (s : string) : bool :=
  match s with
  | String c s' => p c && all_chars p s'
  | EmptyString => true
  end.

(** [str(v)] of a cell *)
Definition str (v : value) : string :=
  match v with
  | VStr s => s
  | VInt n => NilZero.string_of_int (Z.to_int n)
  | VNaN => "nan"
  end.

(** The test of line 112: the stored password "looks like a hash". *)
Definition looks_like_hash (stored_password : string) : bool :=
  (String.length stored_password =? 64)%nat
  && all_chars (λ c, char_in c "0123456789abcdef") (lower stored_password).

(** ** The world outside the frames: workbook, random source, screen *)

(** What Streamlit is asked to show ([st.info], [st.warning], ...). The
    texts are given without their leading pictograph. *)
Inductive message :=
| Info (text : string)
| Warning (text : string)
| Success (text : string)
| Error (text : string)
| Rerun.

Record World := mkWorld {
  (** [club_tasks.xlsx]: its sheets by name; [None] when the file does not
      exist. A sheet reads back as the frame that was written to it. *)
  disk : option (gmap string DataFrame);
  (** [Some e]: opening the workbook for writing raises an exception whose
      text is [e]; the file is then left as it was. *)
  io_error : option string;
  (** How many times [random.randint] has been called. *)
  draws : nat;
  (** Messages shown so far, oldest first. *)
  ui : list message
}.

(** A run of effectful code from a world: it returns, raises, or (for the
    sampling loop, which is given a bound on its iterations) is cut off. *)
Inductive outcome (A : Type) :=
| Returned (a : A) (w : World)
| Raised (e : exn) (w : World)
| Unfinished.
Arguments Returned {A} a w.
Arguments Raised {A} e w.
Arguments Unfinished {A}.

Definition M (A : Type) : Type := World → outcome A.

#[global] Instance M_ret : MRet M := λ A a w, Returned a w.
#[global] Instance M_bind : MBind M := λ A B k m w,
  match m w with
  | Returned a w' => k a w'
  | Raised e w' => Raised e w'
  | Unfinished => Unfinished
  end.

(** A frame computation run inside effectful code. *)
Definition lift {A} (r : result A) : M A := λ w,
  match r with
  | Ok a => Returned a w
  | Raise e => Raised e w
  end.

Definition st (m : message) : M unit := λ w,
  Returned () (mkWorld (disk w) (io_error w) (draws w) (ui w ++ [m])).

(** [pd.read_excel("club_tasks.xlsx", sheet_name=...)] inside
    [try ... except Exception: <default frame>] *)
Definition read_excel_or (sheet : string) (default_df : DataFrame) : M DataFrame :=
  λ w, Returned (default default_df (disk w ≫= (.!! sheet))) w.

(** Opening an [ExcelWriter] and writing sheets through it. [fresh] is mode
    ["w"] (the file is replaced by the sheets written); otherwise mode
    ["a"] with [if_sheet_exists="replace"]. *)
Definition excel_write (fresh : bool) (sheets : list (string * DataFrame))
  : M (option string) := λ w,
  match io_error w with
  | Some e => Returned (Some e) w
  | None =>
      let old := if fresh then ∅ else default ∅ (disk w) in
      Returned None
        (mkWorld (Some (foldl (λ book '(name, df), <[name := df]> book) old sheets))
                 None (draws w) (ui w))
  end.

(** ** update_tasks_sheet (lines 25-38) *)

Definition update_tasks_sheet (df : DataFrame) : M bool :=
  book ← (λ w, Returned (disk w) w);
  failure ← excel_write (negb (bool_decide (is_Some book))) [("Tasks", df)];
  match failure with
  | None => mret true
  | Some e => _ ← st (Error ("Error updating tasks: " ++ e)); mret false
  end.

(** ** Building and joining frames *)

(** A row holding exactly the given fields. *)
Definition record (fields : list (string * value)) : gmap string value :=
  list_to_map fields.

(** [pd.DataFrame([d])] for a dict [d] with the given items. *)
Definition frame_of_dict (fields : list (string * value)) : DataFrame :=
  mkDF (fields.*1) [record fields].

(** The entries of a row under the columns of its frame. *)
Definition visible (cols : list string) (r : gmap string value) : gmap string value :=
  filter (λ kv, kv.1 ∈ cols) r.

(** [pd.concat([a, b], ignore_index=True)]: the rows of [a] then those of
    [b], over the columns of [a] followed by the new columns of [b]. *)
Definition pd_concat (a b : DataFrame) : DataFrame :=
  mkDF (columns a ++ filter (λ c, c ∉ columns a) (columns b))
       ((visible (columns a) <$> rows a) ++ (visible (columns b) <$> rows b)).

(** [df.loc[mask, c] = v]: sets the cell in the rows picked by the mask;
    a column that does not exist yet is added, missing in the other rows. *)
Definition loc_set (df : DataFrame) (m : list bool) (c : string) (v : value)
  : DataFrame :=
  if has_column df c then
    mkDF (columns df) (zip_with (λ r (b : bool), if b then <[c := v]> r else r) (rows df) m)
  else
    mkDF (columns df ++ [c])
         (zip_with (λ r (b : bool), if b then <[c := v]> r else delete c r) (rows df) m).

Section Program.

(** [hashlib.sha256(s.encode()).hexdigest()], kept abstract. *)
Variable sha256_hexdigest : string → string.

(** What [pd.to_numeric(_, errors="coerce")] followed by [astype(int)]
    makes of a string cell: an integer, or nothing when the string does not
    parse as a number. Kept abstract. *)
Variable numeric_of_string : string → option Z.

(** The values the successive calls of [random.randint(100000, 999999)]
    return, in call order. *)
Variable randint : nat → Z.

(** ** hash_password, verify_password (lines 17-23) *)

Definition hash_password (password : string) : string :=
  sha256_hexdigest password.

Definition verify_password (password hashed : string) : bool :=
  bool_decide (hash_password password = hashed).

(** ** authenticate_user (lines 100-124) *)

Definition login_failed : bool * option string * option value :=
  (false, None, None).

Definition authenticate_user (username password : string) (members_df : DataFrame)
  : result (bool * option string * option value) :=
  if empty members_df then Ok login_failed
  else
    names ← col members_df "Name";
    let user_row := select members_df (eq_mask names (VStr username)) in
    if empty user_row then Ok login_failed
    else if has_column members_df "Password" then
      passwords ← col user_row "Password";
      let stored_password := str (iloc0 passwords) in
      if looks_like_hash stored_password then
        if bool_decide (hash_password password = stored_password) then
          roles ← col user_row "Role";
          Ok (true, Some username, Some (iloc0 roles))
        else Ok login_failed
      else
        if bool_decide (password = stored_password) then
          roles ← col user_row "Role";
          Ok (true, Some username, Some (iloc0 roles))
        else Ok login_failed
    else
      if bool_decide (password = "password123") then
        roles ← col user_row "Role";
        Ok (true, Some username, Some (iloc0 roles))
      else Ok login_failed.

(** ** generate_unique_taskid (lines 163-171) *)

Definition randint_100000_999999 : M Z := λ w,
  Returned (randint (draws w))
           (mkWorld (disk w) (io_error w) (S (draws w)) (ui w)).

(** One cell through [pd.to_numeric(_, errors="coerce")], [dropna()] and
    [astype(int)]: [None] for a cell that is dropped. *)
Definition to_numeric_int (v : value) : option Z :=
  match v with
  | VInt n => Some n
  | VStr s => numeric_of_string s
  | VNaN => None
  end.

Definition existing_ids_of (task_ids : list value) : gset Z :=
  list_to_set (omap to_numeric_int task_ids).

(** The [while True] loop of lines 168-171, cut off after [fuel] draws. *)
Fixpoint sample_until_new (fuel : nat) (existing_ids : gset Z) : M Z :=
  match fuel with
  | O => λ _, Unfinished
  | S fuel' =>
      new_id ← randint_100000_999999;
      if bool_decide (new_id ∉ existing_ids) then mret new_id
      else sample_until_new fuel' existing_ids
  end.

Definition generate_unique_taskid (fuel : nat) (tasks_df : DataFrame) : M Z :=
  if empty tasks_df || negb (has_column tasks_df "TaskID") then
    randint_100000_999999
  else
    task_ids ← lift (col tasks_df "TaskID");
    sample_until_new fuel (existing_ids_of task_ids).

(** ** register_user (lines 126-161) *)

Definition tasks_cols : list string :=
  ["TaskID"; "TaskName"; "AssignedTo"; "Role"; "Status"; "Deadline";
   "Priority"; "Description"].

(** [d[k] = v] on a dict given by its items, keeping insertion order. *)
Fixpoint dict_set (d : list (string * value)) (k : string) (v : value)
  : list (string * value) :=
  match d with
  | [] => [(k, v)]
  | (k', v') :: d' => if bool_decide (k' = k) then (k, v) :: d'
                      else (k', v') :: dict_set d' k v
  end.

(** Lines 140-161: the placeholder task and the write of both sheets. *)
Definition register_user_save (fuel : nat) (name role : string)
    (members_df : DataFrame) : M (bool * string) :=
  tasks_df ← read_excel_or "Tasks" (mkDF tasks_cols []);
  let new_task := (λ c, (c, VStr "-")) <$> columns tasks_df in
  let new_task := if has_column tasks_df "AssignedTo"
                  then dict_set new_task "AssignedTo" (VStr name) else new_task in
  let new_task := if has_column tasks_df "Role"
                  then dict_set new_task "Role" (VStr role) else new_task in
  new_task ← (if has_column tasks_df "TaskID"
              then new_id ← generate_unique_taskid fuel tasks_df;
                   mret (dict_set new_task "TaskID" (VInt new_id))
              else mret new_task);
  let tasks_df := pd_concat tasks_df (frame_of_dict new_task) in
  failure ← excel_write true [("Tasks", tasks_df); ("Members", members_df)];
  match failure with
  | None => mret (true, "Registration successful! You can now log in.")
  | Some e => mret (false, "Error saving user: " ++ e)
  end.

Definition register_user (fuel : nat) (name password role : string)
    (members_df : DataFrame) : M (bool * string) :=
  let hashed_pw := hash_password password in
  let new_user := [("Name", VStr name); ("Role", VStr role);
                   ("Password", VStr hashed_pw)] in
  if empty members_df then
    register_user_save fuel name role (frame_of_dict new_user)
  else
    names ← lift (col members_df "Name");
    if existsb (λ x, cell_eqb x (VStr name)) names then
      mret (false, "User already exists.")
    else
      register_user_save fuel name role
        (pd_concat members_df (frame_of_dict new_user)).

(** ** show_dashboard: the role-scoped view (lines 307-331)

    The value of [view_df]; the [st.info] banner of each branch is left
    out. *)

Definition show_dashboard_view (user_name : string) (user_role : value)
    (tasks_df members_df : DataFrame) : result DataFrame :=
  if cell_eqb user_role (VStr "Core Head") then
    let allowed_roles := [VStr "Core Head"; VStr "Domain Head"] in
    roles ← col tasks_df "Role";
    Ok (select tasks_df (isin roles allowed_roles))
  else if cell_eqb user_role (VStr "Domain Head") then
    let subordinates := get_subordinates user_name members_df in
    assigned ← col tasks_df "AssignedTo";
    Ok (select tasks_df (mask_or (eq_mask assigned (VStr user_name))
                                 (isin assigned subordinates)))
  else if cell_eqb user_role (VStr "Associate Head") then
    let subordinates := get_subordinates user_name members_df in
    assigned ← col tasks_df "AssignedTo";
    Ok (select tasks_df (mask_or (eq_mask assigned (VStr user_name))
                                 (isin assigned subordinates)))
  else
    assigned ← col tasks_df "AssignedTo";
    Ok (select tasks_df (eq_mask assigned (VStr user_name))).

(** ** show_dashboard: the "Update Status" tab (lines 437-471) *)

(** The three entries of the "New Status" select box. *)
Inductive Status := NotStarted | InProgress | Done.

#[global] Instance Status_eq_dec : EqDecision Status.
Proof. solve_decision. Defined.

Definition status_label (s : Status) : string :=
  match s with
  | NotStarted => "Not Started"
  | InProgress => "In Progress"
  | Done => "Done"
  end.

(** What the user submits: the position chosen in the "Select Task" box,
    the new status, and the text typed into the description area (which is
    on screen only when the new status is Done). *)
Record UpdateForm := mkForm {
  task_index : nat;
  new_status : Status;
  description_text : string
}.

(** Lines 439-442: the tasks offered for an update. *)
Definition user_tasks_of (user_name : string) (user_role : value)
    (view_df : DataFrame) : result DataFrame :=
  if cell_eqb user_role (VStr "Junior Head") then
    assigned ← col view_df "AssignedTo";
    Ok (select view_df (eq_mask assigned (VStr user_name)))
  else Ok view_df.

(** The [format_func] of line 449, which Streamlit applies to every option
    when it draws the box. *)
Definition option_label (user_tasks : DataFrame) (x : value) : result string :=
  ids ← col user_tasks "TaskID";
  names ← col (select user_tasks (eq_mask ids x)) "TaskName";
  match head names with
  | Some n => Ok ("ID " ++ str x ++ ": " ++ str n)
  | None => Raise (IndexError "single positional indexer is out-of-bounds")
  end.

(** The options of the "Select Task" box when the form is drawn; [None]
    when the tab reports that there is nothing to update. *)
Definition update_form_options (user_name : string) (user_role : value)
    (view_df : DataFrame) : result (option (list value)) :=
  user_tasks ← user_tasks_of user_name user_role view_df;
  if empty user_tasks then Ok None
  else
    options ← col user_tasks "TaskID";
    _ ← mapM (option_label user_tasks) options;
    Ok (Some options).

(** Lines 460-469: the form has been submitted with [task_to_update]. *)
Definition update_status_submit (tasks_df : DataFrame) (task_to_update : value)
    (new_status : Status) (completion_description : string)
  : M (DataFrame * option bool) :=
  if bool_decide (new_status = Done) && negb (truthy (strip completion_description))
  then
    _ ← st (Warning "Please provide a description of the completed work.");
    mret (tasks_df, None)
  else
    ids ← lift (col tasks_df "TaskID");
    let tasks_df := loc_set tasks_df (eq_mask ids task_to_update) "Status"
                            (VStr (status_label new_status)) in
    tasks_df ← (if bool_decide (new_status = Done) then
                  ids ← lift (col tasks_df "TaskID");
                  mret (loc_set tasks_df (eq_mask ids task_to_update) "Description"
                                (VStr completion_description))
                else mret tasks_df);
    saved ← update_tasks_sheet tasks_df;
    if (saved : bool) then
      _ ← st (Success ("Task " ++ str task_to_update ++ " updated to '"
                        ++ status_label new_status ++ "'!"));
      _ ← st Rerun;
      mret (tasks_df, Some true)
    else mret (tasks_df, Some false).

(** The tab as a whole. The result is the task frame as it is left in
    memory, and what [update_tasks_sheet] answered if it was called. *)
Definition show_dashboard_update_status (user_name : string) (user_role : value)
    (view_df tasks_df : DataFrame) (form : UpdateForm)
  : M (DataFrame * option bool) :=
  choices ← lift (update_form_options user_name user_role view_df);
  match choices with
  | None =>
      _ ← st (Info "No tasks available for status update.");
      mret (tasks_df, None)
  | Some options =>
      match options !! task_index form with
      | None => mret (tasks_df, None)
      | Some task_to_update =>
          let completion_description :=
            if bool_decide (new_status form = Done) then description_text form
            else "" in
          update_status_submit tasks_df task_to_update (new_status form)
                               completion_description
      end
  end.

(** ** show_dashboard: the "Delete Task" tab (lines 473-496) *)

(** [series != v] *)
Definition ne_mask (s : list value) (v : value) : list bool :=
  (λ x, negb (cell_eqb x v)) <$> s.

(** What the user submits: the position chosen in the "Select Task to
    Delete" box and the state of the confirmation checkbox. *)
Record DeleteForm := mkDelete {
  delete_index : nat;
  confirm_delete : bool
}.

(** The options of the "Select Task to Delete" box, with their labels
    computed as Streamlit does when it draws the box (line 481). *)
Definition delete_form_options (view_df : DataFrame) : result (list value) :=
  options ← col view_df "TaskID";
  _ ← mapM (option_label view_df) options;
  Ok options.

(** The tab with its form submitted. The result is the task frame as it is
    left in memory, and what [update_tasks_sheet] answered if it was
    called. *)
Definition show_dashboard_delete_task (user_role : value)
    (view_df tasks_df : DataFrame) (form : DeleteForm)
  : M (DataFrame * option bool) :=
  if cell_eqb user_role (VStr "Core Head")
     || cell_eqb user_role (VStr "Domain Head") then
    if negb (empty view_df) then
      options ← lift (delete_form_options view_df);
      _ ← st (Warning "This action cannot be undone!");
      match options !! delete_index form with
      | None => mret (tasks_df, None)
      | Some task_to_delete =>
          if confirm_delete form then
            ids ← lift (col tasks_df "TaskID");
            let tasks_df := select tasks_df (ne_mask ids task_to_delete) in
            saved ← update_tasks_sheet tasks_df;
            if (saved : bool) then
              _ ← st (Success ("Task " ++ str task_to_delete
                                ++ " deleted successfully!"));
              _ ← st Rerun;
              mret (tasks_df, Some true)
            else mret (tasks_df, Some false)
          else
            _ ← st (Error "Please confirm the deletion by checking the checkbox.");
            mret (tasks_df, None)
      end
    else
      _ ← st (Info "No tasks available to delete.");
      mret (tasks_df, None)
  else
    _ ← st (Info "Only Core Heads and Domain Heads can delete tasks.");
    mret (tasks_df, None).

(** ** show_dashboard: the "Add Task" tab (lines 380-435) *)

(** The three entries of the "Priority" select box. *)
Inductive Priority := High | Medium | Low.

Definition priority_label (p : Priority) : string :=
  match p with
  | High => "High"
  | Medium => "Medium"
  | Low => "Low"
  end.

(** What the user submits. [new_deadline] is the cell the picked date
    becomes in the frame: dates have no representation of their own among
    the cells of this model, so the cell is left to the caller. *)
Record AddTaskForm := mkAdd {
  new_task_name : string;
  assignee_index : nat;
  new_priority : Priority;
  new_deadline : value;
  task_description : string
}.

(** Lines 382-393: who may be assigned a task by this user; [None] when
    the role may not assign at all. *)
Definition assignable (user_name : string) (user_role : value)
    (members_df : DataFrame) : option (list value) :=
  if cell_eqb user_role (VStr "Core Head") then
    Some (get_subordinates user_name members_df)
  else if cell_eqb user_role (VStr "Domain Head") then
    Some (get_subordinates user_name members_df)
  else if cell_eqb user_role (VStr "Associate Head") then
    Some (get_subordinates user_name members_df)
  else None.

(** Line 408: [members_df[members_df["Name"] == a]["Role"].iloc[0]] *)
Definition assignee_role_of (members_df : DataFrame) (new_assignee : value)
  : result value :=
  names ← col members_df "Name";
  roles ← col (select members_df (eq_mask names new_assignee)) "Role";
  match head roles with
  | Some r => Ok r
  | None => Raise (IndexError "single positional indexer is out-of-bounds")
  end.

(** Lines 405-431: the form has been submitted with [new_assignee]. *)
Definition add_task_submit (fuel : nat) (tasks_df members_df : DataFrame)
    (new_assignee : value) (form : AddTaskForm)
  : M (DataFrame * option bool) :=
  if truthy (strip (new_task_name form)) then
    assignee_role ← lift (assignee_role_of members_df new_assignee);
    new_task_id ← generate_unique_taskid fuel tasks_df;
    let new_task_data :=
      [("TaskID", VInt new_task_id);
       ("TaskName", VStr (new_task_name form));
       ("AssignedTo", new_assignee);
       ("Role", assignee_role);
       ("Status", VStr "Not Started");
       ("Deadline", new_deadline form);
       ("Priority", VStr (priority_label (new_priority form)))] in
    let new_task_data :=
      if has_column tasks_df "Description"
      then dict_set new_task_data "Description" (VStr (task_description form))
      else new_task_data in
    let tasks_df := pd_concat tasks_df (frame_of_dict new_task_data) in
    saved ← update_tasks_sheet tasks_df;
    if (saved : bool) then
      _ ← st (Success ("Task '" ++ new_task_name form ++ "' assigned to "
                        ++ str new_assignee ++ "!"));
      _ ← st Rerun;
      mret (tasks_df, Some true)
    else mret (tasks_df, Some false)
  else
    _ ← st (Warning "Task name cannot be empty.");
    mret (tasks_df, None).

(** The tab as a whole, with its form submitted when it is on screen. *)
Definition show_dashboard_add_task (fuel : nat) (user_name : string)
    (user_role : value) (tasks_df members_df : DataFrame) (form : AddTaskForm)
  : M (DataFrame * option bool) :=
  match assignable user_name user_role members_df with
  | Some (s :: subordinates) =>
      match (s :: subordinates) !! assignee_index form with
      | None => mret (tasks_df, None)
      | Some new_assignee =>
          add_task_submit fuel tasks_df members_df new_assignee form
      end
  | Some [] =>
      _ ← st (Info "You don't have any subordinates to assign tasks to.");
      mret (tasks_df, None)
  | None =>
      _ ← st (Info "You do not have permission to assign tasks.");
      mret (tasks_df, None)
  end.

(** ** load_data (lines 40-55) *)





(** ** Session state (lines 173-181) and routing (lines 632-638) *)

Record Session := mkSession {
  authenticated : bool;
  user_name : option string;
  user_role : option value;
  page : string
}.




(** The "Logout" button of the dashboard (lines 294-299). *)
Definition logout (s : Session) : Session := mkSession false None None "login".

(** ** show_login_page with the form submitted (lines 184-222) *)


(** ** show_register_page with the form submitted (lines 244-273) *)




(** ** show_dashboard: the task summary (lines 333-343) *)

(** [mask.sum()] *)
Definition count_true (m : list bool) : nat :=
  length (filter (λ b, b = true) m).

(** The four figures shown above the tabs (total, completed, in progress,
    not started); [None] when the view is empty and nothing is shown. *)
Definition task_summary (view_df : DataFrame)
  : result (option (nat * nat * nat * nat)) :=
  if negb (empty view_df) then
    let total := length (rows view_df) in
    statuses ← col view_df "Status";
    let completed := count_true (eq_mask statuses (VStr "Done")) in
    statuses ← col view_df "Status";
    let in_progress := count_true (eq_mask statuses (VStr "In Progress")) in
    statuses ← col view_df "Status";
    let not_started := count_true (eq_mask statuses (VStr "Not Started")) in
    Ok (Some (total, completed, in_progress, not_started))
  else Ok None.

End Program.

(** * Vocabulary of the statements *)

(** The member a name resolves to: the first row whose Name is that
    string (what [df[df["Name"] == name]] followed by [.iloc[0]] reads). *)
Definition member_named (members_df : DataFrame) (name : string)
  : option (gmap string value) :=
  head (filter (λ r, cell r "Name" = VStr name) (rows members_df)).

(** The Name cells of a list of rows, in order. *)
Definition names_of (rs : list (gmap string value)) : list value :=
  (λ r, cell r "Name") <$> rs.

(** The TaskID cells of a task table; none when it has no such column. *)
Definition task_id_cells (tasks_df : DataFrame) : list value :=
  if has_column tasks_df "TaskID" then (λ r, cell r "TaskID") <$> rows tasks_df
  else [].

(** The world after [n] more calls of [random.randint]. *)
Definition drawn (w : World) (n : nat) : World :=
  mkWorld (disk w) (io_error w) (n + draws w) (ui w).

(** The task sheet as [register_user] reads it (lines 141-144): the Tasks
    sheet of the workbook, or the empty frame over the eight task columns
    when the file or the sheet is missing. *)
Definition tasks_on_disk (w : World) : DataFrame :=
  default (mkDF tasks_cols []) (disk w ≫= (.!! "Tasks")).

(** The cells of the placeholder task that registration appends. *)
Definition placeholder_cell (name role : string) (new_id : Z) (c : string)
  : value :=
  if bool_decide (c = "TaskID") then VInt new_id
  else if bool_decide (c = "Role") then VStr role
  else if bool_decide (c = "AssignedTo") then VStr name
  else VStr "-".

(** The dict [new_user] of lines 129-133. *)
Definition new_user_fields (name role hashed_pw : string)
  : list (string * value) :=
  [("Name", VStr name); ("Role", VStr role); ("Password", VStr hashed_pw)].

(** The member sheet that a successful [register_user] saves (lines
    134-139). *)
Definition members_with (members_df : DataFrame) (name role hashed_pw : string)
  : DataFrame :=
  if empty members_df then frame_of_dict (new_user_fields name role hashed_pw)
  else pd_concat members_df (frame_of_dict (new_user_fields name role hashed_pw)).

(** What [.iloc[0]] raises on an empty selection. *)
Definition index_error : exn :=
  IndexError "single positional indexer is out-of-bounds".

(** The TaskID cells of a frame that has the column, in row order. *)
Definition ids_of (df : DataFrame) : list value :=
  (λ r, cell r "TaskID") <$> rows df.

(** The world a run ends in, when it ends. *)
Definition world_after {A} (o : outcome A) : option World :=
  match o with
  | Returned _ w | Raised _ w => Some w
  | Unfinished => None
  end.

(** The roles that may delete (line 475) and assign (lines 383-391). *)
Definition may_delete (user_role : value) : Prop :=
  user_role = VStr "Core Head" ∨ user_role = VStr "Domain Head".

Definition may_assign (user_role : value) : Prop :=
  user_role = VStr "Core Head" ∨ user_role = VStr "Domain Head"
  ∨ user_role = VStr "Associate Head".


(** * Sample tables *)

(** Scenario A of the specification, with a Junior Head added. *)
Definition club_members : DataFrame :=
  mkDF ["Name"; "Role"]
    [ record [("Name", VStr "Alice"); ("Role", VStr "Core Head")];
      record [("Name", VStr "Bob"); ("Role", VStr "Domain Head")];
      record [("Name", VStr "Carol"); ("Role", VStr "Junior Head")] ].

(** A member sheet with a Domain column in which two members, Dana and
    Eli, have the Domain cell left blank. *)
Definition domain_members : DataFrame :=
  mkDF ["Name"; "Role"; "Domain"]
    [ record [("Name", VStr "Dana"); ("Role", VStr "Domain Head")];
      record [("Name", VStr "Eli"); ("Role", VStr "Associate Head")];
      record [("Name", VStr "Finn"); ("Role", VStr "Associate Head");
              ("Domain", VStr "Tech")];
      record [("Name", VStr "Gia"); ("Role", VStr "Domain Head");
              ("Domain", VStr "Tech")];
      record [("Name", VStr "Hugo"); ("Role", VStr "Associate Head");
              ("Domain", VStr "Design")] ].

(** A member sheet from before passwords were stored: it has no Password
    column. *)
Definition legacy_members : DataFrame :=
  mkDF ["Name"; "Role"]
    [ record [("Name", VStr "Bob"); ("Role", VStr "Junior Head")] ].

(** A stand-in for SHA-256 on the sample tables: 64 hexadecimal digits for
    every input, two different ones for "secret" and for the rest. *)
Definition toy_digest (s : string) : string :=
  if bool_decide (s = "secret")
  then "5ec7e75ec7e75ec7e75ec7e75ec7e75ec7e75ec7e75ec7e75ec7e75ec7e75ec7"
  else "0000000000000000000000000000000000000000000000000000000000000000".

(** [legacy_members] after Alice has registered through [register_user]:
    the concatenation adds the Password column, blank for Bob. *)
Definition members_after_signup : DataFrame :=
  pd_concat legacy_members
    (frame_of_dict [("Name", VStr "Alice"); ("Role", VStr "Core Head");
                    ("Password", VStr (toy_digest "secret"))]).

(** A task sheet with one task per role level. *)
Definition club_tasks : DataFrame :=
  mkDF tasks_cols
    [ record [("TaskID", VInt 100001); ("TaskName", VStr "Budget");
              ("AssignedTo", VStr "Alice"); ("Role", VStr "Core Head");
              ("Status", VStr "Not Started"); ("Priority", VStr "High")];
      record [("TaskID", VInt 100002); ("TaskName", VStr "Poster");
              ("AssignedTo", VStr "Carol"); ("Role", VStr "Junior Head");
              ("Status", VStr "In Progress"); ("Priority", VStr "Low");
              ("Description", VStr "draft")];
      record [("TaskID", VInt 100003); ("TaskName", VStr "Agenda");
              ("AssignedTo", VStr "Bob"); ("Role", VStr "Domain Head");
              ("Status", VStr "Not Started"); ("Priority", VStr "Medium")] ].

(** Carol's view of [club_tasks]: her own task. *)
Definition carol_view : DataFrame :=
  mkDF tasks_cols
    [ record [("TaskID", VInt 100002); ("TaskName", VStr "Poster");
              ("AssignedTo", VStr "Carol"); ("Role", VStr "Junior Head");
              ("Status", VStr "In Progress"); ("Priority", VStr "Low");
              ("Description", VStr "draft")] ].

(** A workbook holding the two sample sheets, writable, nothing drawn or
    shown yet. *)
Definition club_world : World :=
  mkWorld (Some {[ "Tasks" := club_tasks; "Members" := club_members ]}) None 0 [].

(** [club_tasks] after Carol has set her task back to "Not Started", and
    the world after that update. *)
Definition club_tasks_updated : DataFrame :=
  loc_set club_tasks [false; true; false] "Status" (VStr "Not Started").

Definition club_world_updated : World :=
  mkWorld (Some {[ "Tasks" := club_tasks_updated; "Members" := club_members ]})
          None 0
          [Success "Task 100002 updated to 'Not Started'!"; Rerun].

(** A random source that walks through the range, starting on 100001: it
    returns every value of the range again and again. *)
Definition cycling_randint (i : nat) : Z :=
  (100000 + (Z.of_nat i + 1) `mod` 900000)%Z.

(** A member sheet with a ReportsTo column. *)
Definition reporting_members : DataFrame :=
  mkDF ["Name"; "Role"; "ReportsTo"]
    [ record [("Name", VStr "Ivy"); ("Role", VStr "Associate Head")];
      record [("Name", VStr "Jo"); ("Role", VStr "Junior Head");
              ("ReportsTo", VStr "Ivy")];
      record [("Name", VStr "Kim"); ("Role", VStr "Junior Head");
              ("ReportsTo", VStr "Lee")];
      record [("Name", VStr "Lee"); ("Role", VStr "Associate Head")] ].


(** Alice's view of [club_tasks] as a Core Head. *)
Definition alice_view : DataFrame :=
  mkDF tasks_cols
    [ record [("TaskID", VInt 100001); ("TaskName", VStr "Budget");
              ("AssignedTo", VStr "Alice"); ("Role", VStr "Core Head");
              ("Status", VStr "Not Started"); ("Priority", VStr "High")];
      record [("TaskID", VInt 100003); ("TaskName", VStr "Agenda");
              ("AssignedTo", VStr "Bob"); ("Role", VStr "Domain Head");
              ("Status", VStr "Not Started"); ("Priority", VStr "Medium")] ].

(** No workbook yet, nothing drawn or shown. *)
Definition blank_world : World := mkWorld None None 0 [].

(** A workbook holding only the legacy member sheet. *)
Definition legacy_world : World :=
  mkWorld (Some {[ "Members" := legacy_members ]}) None 0 [].

(** What a run returned and the world it ended in, with a fallback for
    runs that did not return. *)
Definition returned_value {A} (o : outcome A) (fallback : A) : A :=
  match o with
  | Returned a _ => a
  | _ => fallback
  end.

Definition returned_world {A} (o : outcome A) (fallback : World) : World :=
  default fallback (world_after o).

(** Alice signing up against [legacy_members], and the world that
    leaves. *)
Definition signup_run : outcome (bool * string) :=
  register_user toy_digest (λ _, None) cycling_randint 10
                "Alice" "secret" "Core Head" legacy_members legacy_world.

Definition signup_world : World := returned_world signup_run legacy_world.

(** Alice assigning a task to Bob. *)
Definition agenda_form : AddTaskForm :=
  mkAdd "Minutes" 1 Medium (VStr "2025-01-31") "Write them up".

Definition agenda_run : outcome (DataFrame * option bool) :=
  show_dashboard_add_task (λ _, None) cycling_randint 10
    "Alice" (VStr "Core Head") club_tasks club_members agenda_form club_world.

(** Carol marking her task Done. *)
Definition shipped_run : outcome (DataFrame * option bool) :=
  show_dashboard_update_status "Carol" (VStr "Junior Head") carol_view
    club_tasks (mkForm 0 Done "shipped") club_world.

(** Alice deleting the first task of her view. *)
Definition budget_delete_run : outcome (DataFrame * option bool) :=
  show_dashboard_delete_task (VStr "Core Head") alice_view club_tasks
    (mkDelete 0 true) club_world.

(** The task sheet right after Alice's sign-up: its only row is her
    placeholder task. *)
Definition signup_tasks : DataFrame := tasks_on_disk signup_world.

(** * Statements and proofs *)

(** Membership of a label in a list of labels written out. *)
Ltac in_list :=
  repeat first [apply list_elem_of_here | apply list_elem_of_further].

(** ** The string helpers on small inputs *)

Example str_int : str (VInt (-120)) = "-120" ∧ str (VInt 0) = "0".
Proof. split; reflexivity. Qed.

Example strip_ex : strip "  a b  " = "a b" ∧ strip "   " = "".
Proof. split; reflexivity. Qed.

(** ** Masks and filters *)

Lemma cell_eqb_eq a b : cell_eqb a b = true → a = b.
Proof.
  destruct a, b; simpl; try discriminate; intros H%bool_decide_eq_true; congruence.
Qed.

Lemma cell_eqb_VStr x s : cell_eqb x (VStr s) = bool_decide (x = VStr s).
Proof.
  destruct x; simpl; try done.
  apply bool_decide_ext. split; congruence.
Qed.

Lemma cell_eqb_NaN_r x : cell_eqb x VNaN = false.
Proof. by destruct x. Qed.

Lemma cell_eqb_present x v :
  v ≠ VNaN → cell_eqb x v = bool_decide (x = v).
Proof.
  intros Hv. destruct x, v; simpl; try done;
    apply bool_decide_ext; split; congruence.
Qed.

Lemma keep_mask {A} (P : A → Prop) `{!∀ x, Decision (P x)} (f : A → bool) l :
  (∀ x, f x = bool_decide (P x)) → keep l (f <$> l) = filter P l.
Proof.
  intros Hf. induction l as [|x l IH]; [done|].
  rewrite fmap_cons. cbn [keep]. rewrite Hf, filter_cons, IH.
  destruct (decide (P x));
    [rewrite bool_decide_eq_true_2 | rewrite bool_decide_eq_false_2]; done.
Qed.

Lemma filter_none {A} (P : A → Prop) `{!∀ x, Decision (P x)} (l : list A) :
  (∀ x, x ∈ l → ¬ P x) → filter P l = [].
Proof.
  induction l as [|x l IH]; intros Hno; [done|].
  rewrite filter_cons_False by (apply Hno; left).
  apply IH. intros y Hy. apply Hno. by right.
Qed.

Lemma mask_and_fmap {A} (f g : A → bool) (l : list A) :
  mask_and (f <$> l) (g <$> l) = (λ x, f x && g x) <$> l.
Proof.
  unfold mask_and. induction l; [done|].
  rewrite !fmap_cons. cbn [zip_with]. by f_equal.
Qed.

Lemma bind_Ok {A B} (a : A) (k : A → result B) : (Ok a ≫= k) = k a.
Proof. done. Qed.

Lemma has_column_true df c : c ∈ columns df → has_column df c = true.
Proof. intros. by apply bool_decide_eq_true. Qed.

Lemma has_column_false df c : c ∉ columns df → has_column df c = false.
Proof. intros. by apply bool_decide_eq_false. Qed.

Lemma col_present df c :
  c ∈ columns df → col df c = Ok ((λ r, cell r c) <$> rows df).
Proof. intros H. unfold col. by rewrite has_column_true. Qed.

Lemma col_absent df c : c ∉ columns df → col df c = Raise (KeyError c).
Proof. intros H. unfold col. by rewrite has_column_false. Qed.

Lemma eq_mask_cells (rs : list (gmap string value)) c v :
  eq_mask ((λ r, cell r c) <$> rs) v = (λ r, cell_eqb (cell r c) v) <$> rs.
Proof. unfold eq_mask. by rewrite <- list_fmap_compose. Qed.

Lemma isin_cells (rs : list (gmap string value)) c vs :
  isin ((λ r, cell r c) <$> rs) vs = (λ r, isin_val (cell r c) vs) <$> rs.
Proof. unfold isin. by rewrite <- list_fmap_compose. Qed.

(** The rows [df[df[c] == "s"]] keeps. *)
Lemma keep_eq_str (rs : list (gmap string value)) c s :
  keep rs (eq_mask ((λ r, cell r c) <$> rs) (VStr s))
  = filter (λ r, cell r c = VStr s) rs.
Proof.
  rewrite eq_mask_cells. apply keep_mask. intros r. apply cell_eqb_VStr.
Qed.

Lemma keep_isin (rs : list (gmap string value)) c vs :
  keep rs (isin ((λ r, cell r c) <$> rs) vs)
  = filter (λ r, cell r c ∈ vs) rs.
Proof. rewrite isin_cells. by apply keep_mask. Qed.

Lemma empty_false df :
  rows df ≠ [] → columns df ≠ [] → empty df = false.
Proof.
  intros Hr Hc. unfold empty.
  destruct (rows df); [done|]. by destruct (columns df).
Qed.

Lemma empty_no_rows df : rows df = [] → empty df = true.
Proof. unfold empty. by intros ->. Qed.

Lemma columns_nonempty df c : c ∈ columns df → columns df ≠ [].
Proof. intros H E. rewrite E in H. by apply elem_of_nil in H. Qed.

Lemma member_named_rows df name r :
  member_named df name = Some r →
  filter (λ r, cell r "Name" = VStr name) (rows df) ≠ [] ∧ rows df ≠ [].
Proof.
  unfold member_named. intros H. split.
  - intros E. by rewrite E in H.
  - intros E. by rewrite E in H.
Qed.

(** What [get_subordinates] does once the actor's row and role are known:
    the dispatch on the role, with the lookups already resolved. *)
Lemma get_subordinates_resolved df actor r :
  "Name" ∈ columns df → "Role" ∈ columns df →
  member_named df actor = Some r →
  get_subordinates actor df =
    let member_row := mkDF (columns df)
                        (filter (λ r, cell r "Name" = VStr actor) (rows df)) in
    let member_role := cell r "Role" in
    try_except
      (if cell_eqb member_role (VStr "Core Head") then
         col (select df (isin ((λ r, cell r "Role") <$> rows df)
                           [VStr "Domain Head"; VStr "Core Head"])) "Name"
       else if cell_eqb member_role (VStr "Domain Head") then
         if has_column df "Domain" then
           col (select df
                  (mask_and (eq_mask ((λ r, cell r "Role") <$> rows df) (VStr "Associate Head"))
                            (eq_mask ((λ r, cell r "Domain") <$> rows df) (cell r "Domain"))))
               "Name"
         else
           col (select df (eq_mask ((λ r, cell r "Role") <$> rows df) (VStr "Associate Head")))
               "Name"
       else if cell_eqb member_role (VStr "Associate Head") then
         if has_column df "ReportsTo" then
           col (select df
                  (mask_and (eq_mask ((λ r, cell r "Role") <$> rows df) (VStr "Junior Head"))
                            (eq_mask ((λ r, cell r "ReportsTo") <$> rows df) (VStr actor))))
               "Name"
         else
           col (select df (eq_mask ((λ r, cell r "Role") <$> rows df) (VStr "Junior Head")))
               "Name"
       else Ok []) [].
Proof.
  intros HN HR Hm.
  destruct (member_named_rows _ _ _ Hm) as [Hne Hrows].
  unfold get_subordinates, get_subordinates_body.
  rewrite (empty_false df Hrows (columns_nonempty _ _ HN)).
  rewrite (col_present df "Name" HN), bind_Ok.
  unfold member_named in Hm.
  destruct (filter _ (rows df)) as [|r0 rest] eqn:E; [done|].
  simpl in Hm. injection Hm as ->.
  assert (Hsel : select df (eq_mask ((λ r, cell r "Name") <$> rows df) (VStr actor))
                 = mkDF (columns df) (r :: rest)).
  { unfold select. by rewrite keep_eq_str, E. }
  rewrite !Hsel.
  rewrite (empty_false (mkDF _ _)) by (simpl; eauto using columns_nonempty).
  rewrite (col_present (mkDF _ _) "Role") by done.
  rewrite (col_present df "Role" HR), !bind_Ok.
  change (iloc0 ((λ r, cell r "Role") <$> rows (mkDF (columns df) (r :: rest))))
    with (cell r "Role").
  cbv zeta.
  destruct (cell_eqb (cell r "Role") (VStr "Core Head")); [done|].
  destruct (cell_eqb (cell r "Role") (VStr "Domain Head")).
  - destruct (has_column df "Domain") eqn:HD; [|done].
    apply bool_decide_eq_true in HD.
    rewrite (col_present (mkDF _ _) "Domain") by done.
    rewrite (col_present df "Domain" HD). by rewrite !bind_Ok.
  - destruct (cell_eqb (cell r "Role") (VStr "Associate Head")); [|done].
    destruct (has_column df "ReportsTo") eqn:HD; [|done].
    apply bool_decide_eq_true in HD.
    rewrite (col_present df "ReportsTo" HD). by rewrite !bind_Ok.
Qed.

Lemma col_select_names df m :
  "Name" ∈ columns df →
  col (select df m) "Name" = Ok (names_of (keep (rows df) m)).
Proof. intros H. by rewrite col_present. Qed.

Lemma get_subordinates_no_column df actor c :
  c = "Name" ∨ c = "Role" → c ∉ columns df → get_subordinates actor df = [].
Proof.
  intros Hc Habs. unfold get_subordinates, get_subordinates_body.
  destruct (empty df); [done|].
  destruct (decide ("Name" ∈ columns df)) as [HN|HN].
  - destruct Hc as [->| ->]; [done|].
    rewrite (col_present df "Name" HN), bind_Ok. cbv zeta.
    destruct (empty (select df _)); [done|].
    by rewrite (col_absent (select df _) "Role").
  - by rewrite (col_absent df "Name").
Qed.

(** ** The Hierarchy Resolver *)

(** C1. For an actor whose role is Core Head, [get_subordinates] returns
    exactly the names of the members whose role is Domain Head or Core Head,
    in table order, and the actor's own name is among them. *)
Theorem get_subordinates_core_head df actor r :
  "Name" ∈ columns df → "Role" ∈ columns df →
  member_named df actor = Some r →
  cell r "Role" = VStr "Core Head" →
  get_subordinates actor df
  = names_of (filter (λ m, cell m "Role" ∈ [VStr "Domain Head"; VStr "Core Head"])
                     (rows df))
  ∧ VStr actor ∈ get_subordinates actor df.
Proof.
  intros HN HR Hm Hrole.
  assert (Heq : get_subordinates actor df
    = names_of (filter (λ m, cell m "Role" ∈ [VStr "Domain Head"; VStr "Core Head"])
                       (rows df))).
  { rewrite (get_subordinates_resolved df actor r HN HR Hm). cbv zeta.
    rewrite Hrole. simpl cell_eqb.
    rewrite col_select_names by done. by rewrite keep_isin. }
  split; [done|]. rewrite Heq.
  unfold member_named in Hm. apply head_Some_elem_of in Hm.
  apply list_elem_of_filter in Hm as [Hname Hin].
  rewrite <- Hname. unfold names_of.
  apply (list_elem_of_fmap_2 (λ r, cell r "Name")).
  apply list_elem_of_filter. split; [|done].
  rewrite Hrole. set_solver.
Qed.

Lemma get_subordinates_core_head_witness :
  get_subordinates "Alice" club_members
  = names_of (filter (λ m, cell m "Role" ∈ [VStr "Domain Head"; VStr "Core Head"])
                     (rows club_members))
  ∧ VStr "Alice" ∈ get_subordinates "Alice" club_members.
Proof.
  apply (get_subordinates_core_head club_members "Alice"
           (record [("Name", VStr "Alice"); ("Role", VStr "Core Head")])).
  - compute_done.
  - compute_done.
  - vm_compute. reflexivity.
  - vm_compute. reflexivity.
Defined.

(** C8. [get_subordinates] returns the empty list when the member table is
    empty, when no member has the actor's name, and when the actor's role is
    none of Core Head, Domain Head, Associate Head (Junior Head included).
    It never raises: it is a total function into lists, the [KeyError]s of
    its body being caught. *)
Theorem get_subordinates_nobody df actor :
  empty df = true
  ∨ (∀ m, m ∈ rows df → cell m "Name" ≠ VStr actor)
  ∨ (∃ r, member_named df actor = Some r
          ∧ cell r "Role" ∉ [VStr "Core Head"; VStr "Domain Head";
                             VStr "Associate Head"]) →
  get_subordinates actor df = [].
Proof.
  intros [Hempty | [Habsent | (r & Hm & Hrole)]].
  - unfold get_subordinates. by rewrite Hempty.
  - destruct (decide ("Name" ∈ columns df)) as [HN|HN];
      [|by apply (get_subordinates_no_column df actor "Name"); auto].
    unfold get_subordinates, get_subordinates_body.
    destruct (empty df); [done|].
    rewrite (col_present df "Name" HN), bind_Ok. cbv zeta.
    unfold select. rewrite keep_eq_str.
    rewrite filter_none by done. by rewrite empty_no_rows.
  - destruct (decide ("Name" ∈ columns df)) as [HN|HN];
      [|by apply (get_subordinates_no_column df actor "Name"); auto].
    destruct (decide ("Role" ∈ columns df)) as [HR|HR];
      [|by apply (get_subordinates_no_column df actor "Role"); auto].
    rewrite (get_subordinates_resolved df actor r HN HR Hm). cbv zeta.
    rewrite !cell_eqb_VStr.
    rewrite !bool_decide_eq_false_2; [done|..];
      intros E; apply Hrole; rewrite E; set_solver.
Qed.

Lemma get_subordinates_nobody_witness :
  get_subordinates "Alice" (mkDF ["Name"; "Role"] []) = []
  ∧ get_subordinates "Zed" club_members = []
  ∧ get_subordinates "Carol" club_members = [].
Proof.
  split; [|split].
  - apply get_subordinates_nobody. left. reflexivity.
  - apply get_subordinates_nobody. right. left.
    intros m Hm. apply list_elem_of_In in Hm. simpl in Hm.
    destruct Hm as [<-|[<-|[<-|[]]]]; vm_compute; discriminate.
  - apply get_subordinates_nobody. right. right.
    exists (record [("Name", VStr "Carol"); ("Role", VStr "Junior Head")]).
    split; [vm_compute; reflexivity|].
    apply (bool_decide_unpack _). vm_compute. exact I.
Defined.

Lemma cell_eqb_spec x v : cell_eqb x v = bool_decide (x = v ∧ v ≠ VNaN).
Proof.
  destruct (decide (v = VNaN)) as [->|Hv].
  - rewrite cell_eqb_NaN_r. symmetry. apply bool_decide_eq_false. tauto.
  - rewrite cell_eqb_present by done. apply bool_decide_ext. tauto.
Qed.

(** C5, as the code has it. For an actor whose role is Domain Head: with a
    Domain column, [get_subordinates] returns exactly the names of the
    Associate Heads whose Domain cell is filled in and equal to the actor's
    (so none at all when the actor's own Domain is blank); without a Domain
    column, the names of all Associate Heads. *)
Theorem get_subordinates_domain_head df actor r :
  "Name" ∈ columns df → "Role" ∈ columns df →
  member_named df actor = Some r →
  cell r "Role" = VStr "Domain Head" →
  ("Domain" ∈ columns df →
     get_subordinates actor df
     = names_of (filter (λ m, cell m "Role" = VStr "Associate Head"
                              ∧ cell m "Domain" = cell r "Domain"
                              ∧ cell r "Domain" ≠ VNaN) (rows df)))
  ∧ ("Domain" ∉ columns df →
     get_subordinates actor df
     = names_of (filter (λ m, cell m "Role" = VStr "Associate Head") (rows df))).
Proof.
  intros HN HR Hm Hrole.
  rewrite (get_subordinates_resolved df actor r HN HR Hm). cbv zeta.
  rewrite Hrole. simpl cell_eqb. split; intros HD.
  - rewrite has_column_true by done.
    rewrite col_select_names by done. simpl try_except. f_equal.
    rewrite !eq_mask_cells, mask_and_fmap.
    apply keep_mask. intros m.
    rewrite cell_eqb_VStr, cell_eqb_spec.
    destruct (decide (cell m "Role" = VStr "Associate Head")) as [H1|H1];
    destruct (decide (cell m "Domain" = cell r "Domain" ∧ cell r "Domain" ≠ VNaN))
      as [H2|H2].
    + rewrite !bool_decide_eq_true_2; tauto.
    + rewrite bool_decide_eq_true_2, !bool_decide_eq_false_2; tauto.
    + rewrite (bool_decide_eq_false_2 (cell m "Role" = _)) by done.
      rewrite (bool_decide_eq_false_2 (_ ∧ _ ∧ _)); tauto.
    + rewrite (bool_decide_eq_false_2 (cell m "Role" = _)) by done.
      rewrite (bool_decide_eq_false_2 (_ ∧ _ ∧ _)); tauto.
  - rewrite has_column_false by done.
    rewrite col_select_names by done. simpl try_except.
    by rewrite keep_eq_str.
Qed.

Lemma get_subordinates_domain_head_witness :
  get_subordinates "Gia" domain_members = [VStr "Finn"]
  ∧ get_subordinates "Bob" club_members = [].
Proof.
  split.
  - refine (eq_trans
      (proj1 (get_subordinates_domain_head domain_members "Gia"
                (record [("Name", VStr "Gia"); ("Role", VStr "Domain Head");
                         ("Domain", VStr "Tech")]) _ _ _ _) _) _).
    + compute_done.
    + compute_done.
    + vm_compute. reflexivity.
    + vm_compute. reflexivity.
    + compute_done.
    + vm_compute. reflexivity.
  - refine (eq_trans
      (proj2 (get_subordinates_domain_head club_members "Bob"
                (record [("Name", VStr "Bob"); ("Role", VStr "Domain Head")])
                _ _ _ _) _) _).
    + compute_done.
    + compute_done.
    + vm_compute. reflexivity.
    + vm_compute. reflexivity.
    + compute_done.
    + vm_compute. reflexivity.
Defined.

(** C5 as written fails where Domain cells are blank: read with plain
    equality of the two members' Domain fields, the claim makes Eli (no
    Domain) a subordinate of Dana (no Domain), and the code returns nobody. *)
Lemma get_subordinates_domain_head_blank_domain :
  ¬ (∀ df actor r,
       "Name" ∈ columns df → "Role" ∈ columns df → "Domain" ∈ columns df →
       member_named df actor = Some r →
       cell r "Role" = VStr "Domain Head" →
       get_subordinates actor df
       = names_of (filter (λ m, cell m "Role" = VStr "Associate Head"
                                ∧ cell m "Domain" = cell r "Domain") (rows df))).
Proof.
  intros H.
  specialize (H domain_members "Dana"
                (record [("Name", VStr "Dana"); ("Role", VStr "Domain Head")])).
  assert (Hcode : get_subordinates "Dana" domain_members = [])
    by (vm_compute; reflexivity).
  rewrite Hcode in H.
  assert (Hclaim :
    names_of (filter (λ m, cell m "Role" = VStr "Associate Head"
                ∧ cell m "Domain"
                  = cell (record [("Name", VStr "Dana"); ("Role", VStr "Domain Head")])
                         "Domain") (rows domain_members))
    = [VStr "Eli"]) by (vm_compute; reflexivity).
  rewrite Hclaim in H.
  discriminate H; first [compute_done | vm_compute; reflexivity].
Qed.

(** ** Authentication *)

Section Authentication.

Variable sha256_hexdigest : string → string.

(** [authenticate_user] once the user's row is known: which of the three
    credential checks applies, and what it compares. *)
Lemma authenticate_user_resolved df username password r :
  "Name" ∈ columns df → "Role" ∈ columns df →
  member_named df username = Some r →
  authenticate_user sha256_hexdigest username password df =
    let granted := (true, Some username, Some (cell r "Role")) in
    let stored_password := str (cell r "Password") in
    Ok (if has_column df "Password" then
          if looks_like_hash stored_password then
            if bool_decide (sha256_hexdigest password = stored_password)
            then granted else login_failed
          else
            if bool_decide (password = stored_password)
            then granted else login_failed
        else
          if bool_decide (password = "password123")
          then granted else login_failed).
Proof.
  intros HN HR Hm.
  destruct (member_named_rows _ _ _ Hm) as [Hne Hrows].
  unfold authenticate_user, hash_password.
  rewrite (empty_false df Hrows (columns_nonempty _ _ HN)).
  rewrite (col_present df "Name" HN), bind_Ok.
  unfold member_named in Hm.
  destruct (filter _ (rows df)) as [|r0 rest] eqn:E; [done|].
  simpl in Hm. injection Hm as ->.
  assert (Hsel : select df (eq_mask ((λ r, cell r "Name") <$> rows df) (VStr username))
                 = mkDF (columns df) (r :: rest)).
  { unfold select. by rewrite keep_eq_str, E. }
  rewrite !Hsel. cbv zeta.
  rewrite (empty_false (mkDF _ _)) by (simpl; eauto using columns_nonempty).
  rewrite (col_present (mkDF _ _) "Role") by done. rewrite !bind_Ok.
  change (iloc0 ((λ r, cell r "Role") <$> rows (mkDF (columns df) (r :: rest))))
    with (cell r "Role").
  destruct (has_column df "Password") eqn:HP.
  - apply bool_decide_eq_true in HP.
    rewrite (col_present (mkDF _ _) "Password") by done. rewrite bind_Ok.
    change (iloc0 ((λ r, cell r "Password") <$> rows (mkDF (columns df) (r :: rest))))
      with (cell r "Password").
    destruct (looks_like_hash _); by case_bool_decide.
  - by case_bool_decide.
Qed.

(** C4, as the code has it. When the member table has no Password column,
    the member signs in with "password123" (getting back the name and the
    member's role) and with no other password. *)
Theorem authenticate_user_default_password df username r :
  "Name" ∈ columns df → "Role" ∈ columns df → "Password" ∉ columns df →
  member_named df username = Some r →
  authenticate_user sha256_hexdigest username "password123" df
  = Ok (true, Some username, Some (cell r "Role"))
  ∧ ∀ password, password ≠ "password123" →
      authenticate_user sha256_hexdigest username password df = Ok login_failed.
Proof.
  intros HN HR HP Hm. split; [|intros password Hne];
    rewrite (authenticate_user_resolved _ _ _ r HN HR Hm); cbv zeta;
    rewrite has_column_false by done.
  - by rewrite bool_decide_eq_true_2.
  - by rewrite bool_decide_eq_false_2.
Qed.

Lemma all_chars_Forall p s :
  all_chars p s = true ↔ Forall (λ c, p c = true) (list_ascii_of_string s).
Proof.
  induction s as [|c s IH]; simpl.
  - split; [constructor | done].
  - rewrite andb_true_iff, IH, Forall_cons. tauto.
Qed.

Lemma char_in_elem_of c t :
  char_in c t = true ↔ c ∈ list_ascii_of_string t.
Proof.
  induction t as [|d t IH]; simpl.
  - split; [done | intros H; by apply elem_of_nil in H].
  - rewrite orb_true_iff, IH, elem_of_cons, Ascii.eqb_eq. tauto.
Qed.

(** The test of line 112 in the words of the claim. *)
Lemma looks_like_hash_spec stored :
  looks_like_hash stored = true
  ↔ String.length stored = 64
    ∧ Forall (λ c, c ∈ list_ascii_of_string "0123456789abcdef")
             (list_ascii_of_string (lower stored)).
Proof.
  unfold looks_like_hash.
  rewrite andb_true_iff, Nat.eqb_eq, all_chars_Forall.
  split; intros [H1 H2]; (split; [done|]);
    (eapply Forall_impl; [exact H2|]); intros c; apply char_in_elem_of.
Qed.

(** C9. For a member whose stored password is 64 characters long and, once
    lowercased, made of hexadecimal digits only, [authenticate_user]
    succeeds exactly when the SHA-256 hex digest of the supplied password is
    the stored value. The plain-text comparison plays no part: supplying the
    stored value itself signs in only if it is its own digest. *)
Theorem authenticate_user_hashed df username r stored :
  "Name" ∈ columns df → "Role" ∈ columns df → "Password" ∈ columns df →
  member_named df username = Some r →
  str (cell r "Password") = stored →
  String.length stored = 64 →
  Forall (λ c, c ∈ list_ascii_of_string "0123456789abcdef")
         (list_ascii_of_string (lower stored)) →
  (∀ password,
     authenticate_user sha256_hexdigest username password df
     = Ok (if bool_decide (sha256_hexdigest password = stored)
           then (true, Some username, Some (cell r "Role"))
           else login_failed))
  ∧ (authenticate_user sha256_hexdigest username stored df
     = Ok (true, Some username, Some (cell r "Role"))
     ↔ sha256_hexdigest stored = stored).
Proof.
  intros HN HR HP Hm Hstored Hlen Hhex.
  assert (Hall : ∀ password,
     authenticate_user sha256_hexdigest username password df
     = Ok (if bool_decide (sha256_hexdigest password = stored)
           then (true, Some username, Some (cell r "Role"))
           else login_failed)).
  { intros password.
    rewrite (authenticate_user_resolved _ _ _ r HN HR Hm). cbv zeta.
    rewrite has_column_true by done. rewrite Hstored.
    by rewrite (proj2 (looks_like_hash_spec stored)). }
  split; [done|]. rewrite Hall. case_bool_decide; [done|].
  split; [discriminate | done].
Qed.

End Authentication.

Lemma authenticate_user_default_password_witness :
  authenticate_user toy_digest "Bob" "password123" legacy_members
  = Ok (true, Some "Bob", Some (VStr "Junior Head"))
  ∧ ∀ password, password ≠ "password123" →
      authenticate_user toy_digest "Bob" password legacy_members = Ok login_failed.
Proof.
  apply (authenticate_user_default_password toy_digest legacy_members "Bob"
           (record [("Name", VStr "Bob"); ("Role", VStr "Junior Head")])).
  - compute_done.
  - compute_done.
  - compute_done.
  - vm_compute. reflexivity.
Defined.

(** C4 as written fails for a member whose Password cell is blank in a
    table that has a Password column (Bob, after Alice has registered):
    "password123" is refused, the text "nan" is what signs Bob in. *)
Lemma authenticate_user_blank_password :
  ¬ (∀ (sha256_hexdigest : string → string) df username r,
       "Name" ∈ columns df → "Role" ∈ columns df →
       member_named df username = Some r →
       r !! "Password" = None →
       authenticate_user sha256_hexdigest username "password123" df
       = Ok (true, Some username, Some (cell r "Role"))
       ∧ ∀ password, password ≠ "password123" →
           authenticate_user sha256_hexdigest username password df
           = Ok login_failed).
Proof.
  intros H.
  destruct (H toy_digest members_after_signup "Bob"
              (record [("Name", VStr "Bob"); ("Role", VStr "Junior Head")]))
    as [Hdefault Hother].
  - compute_done.
  - compute_done.
  - vm_compute. reflexivity.
  - vm_compute. reflexivity.
  - assert (Hcode : authenticate_user toy_digest "Bob" "password123"
                      members_after_signup = Ok login_failed)
      by (vm_compute; reflexivity).
    rewrite Hcode in Hdefault. discriminate Hdefault.
Qed.

Example authenticate_user_nan :
  authenticate_user toy_digest "Bob" "nan" members_after_signup
  = Ok (true, Some "Bob", Some (VStr "Junior Head")).
Proof. vm_compute. reflexivity. Qed.

Lemma authenticate_user_hashed_witness :
  (∀ password,
     authenticate_user toy_digest "Alice" password members_after_signup
     = Ok (if bool_decide (toy_digest password = toy_digest "secret")
           then (true, Some "Alice", Some (VStr "Core Head"))
           else login_failed))
  ∧ (authenticate_user toy_digest "Alice" (toy_digest "secret") members_after_signup
     = Ok (true, Some "Alice", Some (VStr "Core Head"))
     ↔ toy_digest (toy_digest "secret") = toy_digest "secret").
Proof.
  apply (authenticate_user_hashed toy_digest members_after_signup "Alice"
           (record [("Name", VStr "Alice"); ("Role", VStr "Core Head");
                    ("Password", VStr (toy_digest "secret"))])
           (toy_digest "secret")).
  - compute_done.
  - compute_done.
  - compute_done.
  - vm_compute. reflexivity.
  - vm_compute. reflexivity.
  - vm_compute. reflexivity.
  - compute_done.
Defined.

(** ** The task view of a Core Head *)

(** C7. For a Core Head the visible tasks are exactly the tasks whose own
    Role cell is Core Head or Domain Head, whatever the member table says,
    and they come in the order of the task table. *)
Theorem show_dashboard_view_core_head user_name tasks_df members_df :
  "Role" ∈ columns tasks_df →
  ∃ view_df,
    show_dashboard_view user_name (VStr "Core Head") tasks_df members_df = Ok view_df
    ∧ columns view_df = columns tasks_df
    ∧ rows view_df
      = filter (λ t, cell t "Role" ∈ [VStr "Core Head"; VStr "Domain Head"])
               (rows tasks_df)
    ∧ rows view_df `sublist_of` rows tasks_df.
Proof.
  intros HR. eexists. unfold show_dashboard_view. simpl cell_eqb. cbv zeta.
  rewrite (col_present tasks_df "Role" HR), bind_Ok.
  split; [reflexivity|]. split; [reflexivity|].
  unfold select. cbn [rows]. rewrite keep_isin.
  split; [reflexivity | apply sublist_filter].
Qed.

Lemma show_dashboard_view_core_head_witness :
  ∃ view_df,
    show_dashboard_view "Alice" (VStr "Core Head") club_tasks club_members = Ok view_df
    ∧ columns view_df = columns club_tasks
    ∧ rows view_df
      = filter (λ t, cell t "Role" ∈ [VStr "Core Head"; VStr "Domain Head"])
               (rows club_tasks)
    ∧ rows view_df `sublist_of` rows club_tasks.
Proof.
  apply (show_dashboard_view_core_head "Alice" club_tasks club_members).
  compute_done.
Defined.

Example show_dashboard_view_core_head_ids :
  (show_dashboard_view "Alice" (VStr "Core Head") club_tasks club_members
     ≫= λ view_df, col view_df "TaskID")
  = Ok [VInt 100001; VInt 100003].
Proof. vm_compute. reflexivity. Qed.

(** ** Whitespace *)

Lemma rstrip_empty_iff t : rstrip t = "" ↔ all_chars is_space t = true.
Proof.
  induction t as [|c t IH]; simpl; [done|].
  rewrite andb_true_iff, <- IH.
  destruct (rstrip t), (is_space c); split; try done; intros [? ?]; done.
Qed.

Lemma all_space_lstrip s : all_chars is_space (lstrip s) = all_chars is_space s.
Proof.
  induction s as [|c s IH]; simpl; [done|].
  destruct (is_space c) eqn:E; simpl; [done|]. by rewrite E.
Qed.

(** [not s.strip()] holds exactly for the empty and the whitespace-only
    strings. *)
Lemma strip_blank_iff s :
  truthy (strip s) = false ↔ all_chars is_space s = true.
Proof.
  rewrite <- all_space_lstrip, <- rstrip_empty_iff. unfold strip.
  destruct (rstrip (lstrip s)); simpl; split; done.
Qed.

(** ** Running effectful code *)

Lemma run_lift_Ok {A B} (a : A) (k : A → M B) w :
  (lift (Ok a) ≫= k) w = k a w.
Proof. done. Qed.

Lemma run_st {B} m (k : unit → M B) w :
  (st m ≫= k) w = k () (mkWorld (disk w) (io_error w) (draws w) (ui w ++ [m])).
Proof. done. Qed.

Lemma run_ret {A} (a : A) w : (mret a : M A) w = Returned a w.
Proof. done. Qed.

(** ** The "Update Status" tab *)

(** C2. Whatever the role and whichever task is selected, submitting the
    form with status Done and an empty or whitespace-only description ends
    in the warning that a description is required: nothing is written to
    the workbook, and the task table in memory is as it was. *)
Theorem update_status_done_needs_description
    user_name user_role view_df tasks_df options i task_to_update text w :
  update_form_options user_name user_role view_df = Ok (Some options) →
  options !! i = Some task_to_update →
  all_chars is_space text = true →
  show_dashboard_update_status user_name user_role view_df tasks_df (mkForm i Done text) w
  = Returned (tasks_df, None)
      (mkWorld (disk w) (io_error w) (draws w)
         (ui w ++ [Warning "Please provide a description of the completed work."])).
Proof.
  intros Hform Hsel Hblank.
  unfold show_dashboard_update_status. rewrite Hform, run_lift_Ok.
  cbn [task_index new_status description_text]. rewrite Hsel.
  unfold update_status_submit.
  rewrite !bool_decide_eq_true_2 by done.
  apply strip_blank_iff in Hblank. rewrite Hblank. cbn [negb andb].
  by rewrite run_st.
Qed.

Lemma update_status_done_needs_description_witness :
  show_dashboard_update_status "Carol" (VStr "Junior Head") carol_view club_tasks
    (mkForm 0 Done "  ") club_world
  = Returned (club_tasks, None)
      (mkWorld (disk club_world) (io_error club_world) (draws club_world)
         (ui club_world
            ++ [Warning "Please provide a description of the completed work."])).
Proof.
  apply (update_status_done_needs_description "Carol" (VStr "Junior Head")
           carol_view club_tasks [VInt 100002] 0 (VInt 100002)).
  - vm_compute. reflexivity.
  - reflexivity.
  - reflexivity.
Defined.

Lemma loc_set_rows df (f : gmap string value → bool) c v :
  rows (loc_set df (f <$> rows df) c v)
  = (λ r, if f r then <[c := v]> r
          else if has_column df c then r else delete c r) <$> rows df.
Proof.
  unfold loc_set. destruct (has_column df c); cbn [rows];
    induction (rows df) as [|r l IH]; [done| |done|];
    rewrite !fmap_cons; cbn [zip_with]; by rewrite IH.
Qed.

Lemma loc_set_columns df m c v :
  ∀ c', c' ∈ columns df → c' ∈ columns (loc_set df m c v).
Proof.
  intros c' H. unfold loc_set. destruct (has_column df c); cbn [columns]; [done|].
  apply elem_of_app. by left.
Qed.

(** What [update_tasks_sheet] leaves on disk when it answers [True]. *)
Lemma update_tasks_sheet_saved df w w' :
  update_tasks_sheet df w = Returned true w' →
  disk w' = Some (<["Tasks" := df]> (default ∅ (disk w))) ∧ ui w' = ui w.
Proof.
  unfold update_tasks_sheet, excel_write, mbind, M_bind.
  destruct (io_error w); [discriminate|].
  intros [= <-]. cbn [disk ui]. split; [|done].
  by destruct (disk w).
Qed.

(** C10. After a successful update to a status other than Done, each task
    keeps its Description, and indeed every field other than Status; a task
    whose TaskID differs from the selected one keeps all its fields. What
    has been written to the Tasks sheet is that table. *)
Theorem update_status_frame
    user_name user_role view_df tasks_df form w tasks_df' w' :
  new_status form ≠ Done →
  show_dashboard_update_status user_name user_role view_df tasks_df form w
  = Returned (tasks_df', Some true) w' →
  ∃ options task_to_update,
    update_form_options user_name user_role view_df = Ok (Some options)
    ∧ options !! task_index form = Some task_to_update
    ∧ disk w' = Some (<["Tasks" := tasks_df']> (default ∅ (disk w)))
    ∧ (∀ c, c ∈ columns tasks_df → c ∈ columns tasks_df')
    ∧ length (rows tasks_df') = length (rows tasks_df)
    ∧ ∀ i t, rows tasks_df !! i = Some t →
        ∃ t', rows tasks_df' !! i = Some t'
          ∧ t' !! "Description" = t !! "Description"
          ∧ (∀ c, c ≠ "Status" → t' !! c = t !! c)
          ∧ (cell t "TaskID" ≠ task_to_update →
             ∀ c, c ∈ columns tasks_df → cell t' c = cell t c).
Proof.
  intros Hstatus Hrun. unfold show_dashboard_update_status in Hrun.
  destruct (update_form_options user_name user_role view_df)
    as [[options|]|e] eqn:Hform; [| discriminate Hrun | discriminate Hrun].
  rewrite run_lift_Ok in Hrun.
  destruct (options !! task_index form) as [task_to_update|] eqn:Hsel;
    [|discriminate Hrun].
  exists options, task_to_update. split; [done|]. split; [done|].
  unfold update_status_submit in Hrun.
  rewrite !(bool_decide_eq_false_2 (new_status form = Done)) in Hrun by done.
  cbn [andb] in Hrun.
  destruct (decide ("TaskID" ∈ columns tasks_df)) as [HT|HT];
    [|rewrite (col_absent _ _ HT) in Hrun; discriminate Hrun].
  rewrite (col_present _ _ HT), run_lift_Ok in Hrun.
  rewrite eq_mask_cells in Hrun.
  set (df1 := loc_set tasks_df _ "Status" _) in Hrun.
  unfold mbind, M_bind in Hrun. rewrite run_ret in Hrun.
  destruct (update_tasks_sheet df1 w) as [[|] w1| |] eqn:Hsave;
    [| discriminate Hrun | discriminate Hrun | discriminate Hrun].
  apply update_tasks_sheet_saved in Hsave as [Hdisk Hui].
  unfold st, mret, M_ret in Hrun. injection Hrun as <- <-.
  cbn [disk]. split; [done|].
  split; [apply loc_set_columns|].
  unfold df1. rewrite loc_set_rows. split; [by rewrite length_fmap|].
  intros i t Hi. rewrite list_lookup_fmap, Hi. eexists. split; [reflexivity|].
  assert (Hother : ∀ c, c ≠ "Status" →
    (if cell_eqb (cell t "TaskID") task_to_update
     then <["Status" := VStr (status_label (new_status form))]> t
     else if has_column tasks_df "Status" then t else delete "Status" t) !! c
    = t !! c).
  { intros c Hc. destruct (cell_eqb _ _); [by rewrite lookup_insert_ne|].
    destruct (has_column _ _); [done|]. by rewrite lookup_delete_ne. }
  split; [by apply Hother|]. split; [done|].
  intros Hdiff c Hc.
  destruct (cell_eqb _ _) eqn:E; [by apply cell_eqb_eq in E|].
  destruct (has_column tasks_df "Status") eqn:HS; [done|].
  unfold cell. rewrite lookup_delete_ne; [done|].
  intros <-. apply bool_decide_eq_false in HS. done.
Qed.

Lemma update_status_frame_witness :
  ∃ options task_to_update,
    update_form_options "Carol" (VStr "Junior Head") carol_view = Ok (Some options)
    ∧ options !! 0 = Some task_to_update
    ∧ disk club_world_updated
      = Some (<["Tasks" := club_tasks_updated]> (default ∅ (disk club_world)))
    ∧ (∀ c, c ∈ columns club_tasks → c ∈ columns club_tasks_updated)
    ∧ length (rows club_tasks_updated) = length (rows club_tasks)
    ∧ ∀ i t, rows club_tasks !! i = Some t →
        ∃ t', rows club_tasks_updated !! i = Some t'
          ∧ t' !! "Description" = t !! "Description"
          ∧ (∀ c, c ≠ "Status" → t' !! c = t !! c)
          ∧ (cell t "TaskID" ≠ task_to_update →
             ∀ c, c ∈ columns club_tasks → cell t' c = cell t c).
Proof.
  apply (update_status_frame "Carol" (VStr "Junior Head") carol_view club_tasks
           (mkForm 0 NotStarted "") club_world club_tasks_updated
           club_world_updated).
  - simpl. discriminate.
  - vm_compute. reflexivity.
Defined.

(** ** Registration *)

Section Registration.

Variable sha256_hexdigest : string → string.
Variable numeric_of_string : string → option Z.
Variable randint : nat → Z.

(** C6. Registering a name that a member of the table already bears is
    refused with "User already exists.", and the world is left exactly as it
    was: no sheet is written, no identifier is drawn. *)
Theorem register_user_existing_name fuel name password role members_df w :
  "Name" ∈ columns members_df →
  (∃ m, m ∈ rows members_df ∧ cell m "Name" = VStr name) →
  register_user sha256_hexdigest numeric_of_string randint
                fuel name password role members_df w
  = Returned (false, "User already exists.") w.
Proof.
  intros HN (m & Hin & Hname). unfold register_user. cbv zeta.
  rewrite empty_false;
    [| intros E; rewrite E in Hin; by apply elem_of_nil in Hin
     | by eapply columns_nonempty].
  rewrite (col_present _ _ HN), run_lift_Ok.
  rewrite (proj2 (existsb_exists _ _)); [done|].
  exists (cell m "Name"). split.
  - apply list_elem_of_In. by apply (list_elem_of_fmap_2 (λ r, cell r "Name")).
  - rewrite Hname. simpl. by apply bool_decide_eq_true.
Qed.

End Registration.

Lemma register_user_existing_name_witness :
  register_user toy_digest (λ _, None) (λ _, 100000%Z)
                0 "Bob" "hunter2" "Core Head" club_members club_world
  = Returned (false, "User already exists.") club_world.
Proof.
  apply register_user_existing_name.
  - compute_done.
  - exists (record [("Name", VStr "Bob"); ("Role", VStr "Domain Head")]).
    split; [compute_done | vm_compute; reflexivity].
Defined.

(** ** Task identifiers *)

Section TaskIds.

Variable numeric_of_string : string → option Z.
Variable randint : nat → Z.

(** The loop stops at the first draw that is not taken, provided one comes
    within [n] further draws; more fuel than that changes nothing. *)
Lemma sample_until_new_stops (existing : gset Z) (n : nat) : ∀ w,
  (randint (draws w + n)%nat ∉ existing) →
  ∃ k : nat, (k ≤ n)%nat
    ∧ (randint (draws w + k)%nat ∉ existing)
    ∧ ∀ fuel : nat, (S n ≤ fuel)%nat →
        sample_until_new randint fuel existing w
        = Returned (randint (draws w + k)%nat) (drawn w (S k)).
Proof.
  induction n as [|n IH]; intros w Hfree.
  - exists 0%nat. split; [done|]. split; [done|].
    intros [|fuel] Hfuel; [lia|]. cbn [sample_until_new].
    unfold mbind, M_bind, randint_100000_999999.
    rewrite Nat.add_0_r in *. by rewrite bool_decide_eq_true_2.
  - destruct (decide (randint (draws w) ∉ existing)) as [Hnow|Htaken].
    + exists 0%nat. split; [lia|]. rewrite Nat.add_0_r. split; [done|].
      intros [|fuel] Hfuel; [lia|]. cbn [sample_until_new].
      unfold mbind, M_bind, randint_100000_999999.
      by rewrite bool_decide_eq_true_2.
    + destruct (IH (drawn w 1)) as (k & Hk & Hfreek & Hrun).
      { cbn [drawn draws].
        by replace (1 + draws w + n)%nat with (draws w + S n)%nat by lia. }
      exists (S k). split; [lia|].
      cbn [drawn draws] in Hfreek, Hrun.
      replace (1 + draws w + k)%nat with (draws w + S k)%nat in * by lia.
      split; [done|].
      intros [|fuel] Hfuel; [lia|]. cbn [sample_until_new].
      unfold mbind, M_bind, randint_100000_999999.
      rewrite bool_decide_eq_false_2 by done.
      change (mkWorld (disk w) (io_error w) (S (draws w)) (ui w)) with (drawn w 1).
      rewrite Hrun by lia. f_equal. unfold drawn. cbn [disk io_error draws ui].
      f_equal. lia.
Qed.

Lemma existing_ids_numeric (cells : list value) (n : Z) :
  VInt n ∈ cells → n ∈ existing_ids_of numeric_of_string cells.
Proof.
  intros H. unfold existing_ids_of. apply elem_of_list_to_set.
  apply list_elem_of_omap. by exists (VInt n).
Qed.

Lemma task_id_cells_nil tasks_df :
  empty tasks_df || negb (has_column tasks_df "TaskID") = true →
  task_id_cells tasks_df = [].
Proof.
  unfold task_id_cells. destruct (has_column tasks_df "TaskID") eqn:HT; [|done].
  rewrite orb_false_r. unfold empty. intros He.
  destruct (rows tasks_df); [done|].
  apply bool_decide_eq_true in HT. destruct (columns tasks_df); [|done].
  by apply elem_of_nil in HT.
Qed.

(** C3. Take a task table in which some value of 100000..999999 is not yet
    a TaskID, and a random source whose draws lie in that range and keep
    returning every value of it (as uniform draws do with probability 1).
    Then [generate_unique_taskid] returns, after finitely many draws and
    without touching the workbook, an integer of the range that is none of
    the identifiers the table holds. *)
Theorem generate_unique_taskid_fresh tasks_df w :
  (∀ i, 100000 ≤ randint i ≤ 999999)%Z →
  (∀ v, (100000 ≤ v ≤ 999999)%Z →
        ∃ i : nat, (draws w ≤ i)%nat ∧ randint i = v) →
  (∃ v, (100000 ≤ v ≤ 999999)%Z
        ∧ (v ∉ existing_ids_of numeric_of_string (task_id_cells tasks_df))) →
  ∃ (fuel : nat) (new_id : Z) (k : nat),
    (∀ fuel' : nat, (fuel ≤ fuel')%nat →
       generate_unique_taskid numeric_of_string randint fuel' tasks_df w
       = Returned new_id (drawn w (S k)))
    ∧ (100000 ≤ new_id ≤ 999999)%Z
    ∧ (new_id ∉ existing_ids_of numeric_of_string (task_id_cells tasks_df))
    ∧ (VInt new_id ∉ task_id_cells tasks_df).
Proof.
  intros Hrange Hfair (v & Hv & Hfree).
  assert (Hcells : ∀ n, n ∉ existing_ids_of numeric_of_string (task_id_cells tasks_df)
                        → VInt n ∉ task_id_cells tasks_df).
  { intros n Hn Hin. by apply Hn, existing_ids_numeric. }
  unfold generate_unique_taskid.
  destruct (empty tasks_df || negb (has_column tasks_df "TaskID")) eqn:E.
  - exists 0%nat, (randint (draws w)), 0%nat.
    rewrite (task_id_cells_nil _ E) in *.
    split; [done|]. split; [apply Hrange|]. split; [|apply Hcells]; set_solver.
  - apply orb_false_iff in E as [_ HT]. apply negb_false_iff in HT.
    unfold task_id_cells in *. rewrite HT in *.
    unfold col. rewrite HT.
    destruct (Hfair v Hv) as (i & Hi & Hdraw).
    destruct (sample_until_new_stops
                (existing_ids_of numeric_of_string
                   ((λ r, cell r "TaskID") <$> rows tasks_df))
                (i - draws w) w) as (k & Hk & Hnew & Hrun).
    { replace (draws w + (i - draws w))%nat with i by lia. by rewrite Hdraw. }
    exists (S (i - draws w)), (randint (draws w + k)%nat), k.
    split; [|split; [apply Hrange | split; [done | by apply Hcells]]].
    intros fuel' Hfuel. rewrite run_lift_Ok. by apply Hrun.
Qed.

End TaskIds.

Lemma cycling_randint_range i : (100000 ≤ cycling_randint i ≤ 999999)%Z.
Proof.
  unfold cycling_randint.
  pose proof (Z.mod_pos_bound (Z.of_nat i + 1) 900000). lia.
Qed.

Lemma cycling_randint_fair v :
  (100000 ≤ v ≤ 999999)%Z → ∃ i : nat, (0 ≤ i)%nat ∧ cycling_randint i = v.
Proof.
  intros Hv. unfold cycling_randint.
  destruct (decide (v = 100000%Z)) as [->|Hne].
  - exists (Z.to_nat 899999). split; [lia|]. by rewrite Z2Nat.id.
  - exists (Z.to_nat (v - 100001)). split; [lia|].
    rewrite Z2Nat.id by lia. rewrite Z.mod_small; lia.
Qed.

Lemma generate_unique_taskid_fresh_witness :
  ∃ (fuel : nat) (new_id : Z) (k : nat),
    (∀ fuel' : nat, (fuel ≤ fuel')%nat →
       generate_unique_taskid (λ _, None) cycling_randint fuel' club_tasks club_world
       = Returned new_id (drawn club_world (S k)))
    ∧ (100000 ≤ new_id ≤ 999999)%Z
    ∧ (new_id ∉ existing_ids_of (λ _, None) (task_id_cells club_tasks))
    ∧ (VInt new_id ∉ task_id_cells club_tasks).
Proof.
  apply (generate_unique_taskid_fresh (λ _, None) cycling_randint club_tasks club_world).
  - apply cycling_randint_range.
  - apply cycling_randint_fair.
  - exists 100000%Z. split; [lia|]. compute_done.
Defined.

Example generate_unique_taskid_retries :
  generate_unique_taskid (λ _, None) cycling_randint 10 club_tasks club_world
  = Returned 100004%Z (drawn club_world 4).
Proof. vm_compute. reflexivity. Qed.

(** ** The model at work on the sample tables *)

(** Registration on a member sheet without a Password column: both sheets
    are written, and the Members sheet is [members_after_signup]. *)
Example register_user_signup :
  ∃ w',
    register_user toy_digest (λ _, None) cycling_randint 10
                  "Alice" "secret" "Core Head" legacy_members
                  (mkWorld None None 0 [])
    = Returned (true, "Registration successful! You can now log in.") w'
    ∧ disk w' ≫= (.!! "Members") = Some members_after_signup
    ∧ (λ t, col t "AssignedTo") <$> (disk w' ≫= (.!! "Tasks"))
      = Some (Ok [VStr "Alice"]).
Proof. eexists. repeat split; vm_compute; reflexivity. Qed.

(** Scenario C of the specification: marking a task Done with a note. *)
Example update_status_done_with_note :
  ∃ tasks_df' w',
    show_dashboard_update_status "Carol" (VStr "Junior Head") carol_view club_tasks
      (mkForm 0 Done "shipped") club_world
    = Returned (tasks_df', Some true) w'
    ∧ ((λ r, (cell r "Status", cell r "Description")) <$> rows tasks_df')
      = [(VStr "Not Started", VNaN); (VStr "Done", VStr "shipped");
         (VStr "Not Started", VNaN)].
Proof. do 2 eexists. split; vm_compute; reflexivity. Qed.

(** A failed write: the table in memory is updated, the workbook is not. *)
Example update_status_write_fails :
  ∃ tasks_df',
    show_dashboard_update_status "Carol" (VStr "Junior Head") carol_view club_tasks
      (mkForm 0 InProgress "") (mkWorld (disk club_world) (Some "Permission denied") 0 [])
    = Returned (tasks_df', Some false)
        (mkWorld (disk club_world) (Some "Permission denied") 0
                 [Error "Error updating tasks: Permission denied"]).
Proof. eexists. vm_compute. reflexivity. Qed.

(** * Further properties of the program *)

(** ** More on the Hierarchy Resolver *)

(** For an actor whose role is Associate Head: with a ReportsTo column,
    [get_subordinates] returns exactly the names of the Junior Heads whose
    ReportsTo cell is the actor's name; without one, the names of all Junior
    Heads. *)
Theorem get_subordinates_associate_head df actor r :
  "Name" ∈ columns df → "Role" ∈ columns df →
  member_named df actor = Some r →
  cell r "Role" = VStr "Associate Head" →
  ("ReportsTo" ∈ columns df →
     get_subordinates actor df
     = names_of (filter (λ m, cell m "Role" = VStr "Junior Head"
                              ∧ cell m "ReportsTo" = VStr actor) (rows df)))
  ∧ ("ReportsTo" ∉ columns df →
     get_subordinates actor df
     = names_of (filter (λ m, cell m "Role" = VStr "Junior Head") (rows df))).
Proof.
  intros HN HR Hm Hrole.
  rewrite (get_subordinates_resolved df actor r HN HR Hm). cbv zeta.
  rewrite Hrole. simpl cell_eqb. split; intros HD.
  - rewrite has_column_true by done.
    rewrite col_select_names by done. simpl try_except. f_equal.
    rewrite !eq_mask_cells, mask_and_fmap.
    apply keep_mask. intros m. rewrite !cell_eqb_VStr.
    destruct (decide (cell m "Role" = VStr "Junior Head")) as [H1|H1];
    destruct (decide (cell m "ReportsTo" = VStr actor)) as [H2|H2].
    + rewrite !bool_decide_eq_true_2; tauto.
    + rewrite bool_decide_eq_true_2, !bool_decide_eq_false_2; tauto.
    + rewrite (bool_decide_eq_false_2 (cell m "Role" = _)) by done.
      rewrite (bool_decide_eq_false_2 (_ ∧ _)); tauto.
    + rewrite (bool_decide_eq_false_2 (cell m "Role" = _)) by done.
      rewrite (bool_decide_eq_false_2 (_ ∧ _)); tauto.
  - rewrite has_column_false by done.
    rewrite col_select_names by done. simpl try_except.
    by rewrite keep_eq_str.
Qed.

Lemma keep_sublist {A} (l : list A) (m : list bool) : keep l m `sublist_of` l.
Proof.
  revert m. induction l as [|x l IH]; intros [|[] m]; cbn [keep];
    try apply sublist_nil_l.
  - by apply sublist_skip.
  - by apply sublist_cons.
Qed.

Lemma names_select_sublist df m :
  try_except (col (select df m) "Name") [] `sublist_of` names_of (rows df).
Proof.
  unfold col. destruct (has_column _ _); cbn [try_except];
    [|apply sublist_nil_l].
  apply fmap_sublist, keep_sublist.
Qed.

Lemma try_except_bind_names df (c : result (list value)) (k : list value → list bool) :
  try_except (c ≫= λ x, col (select df (k x)) "Name") []
    `sublist_of` names_of (rows df).
Proof.
  destruct c as [x|e]; [rewrite bind_Ok; apply names_select_sublist|].
  apply sublist_nil_l.
Qed.

(** Whatever the table and the actor, the names [get_subordinates] returns
    are Name cells of the table, in table order and no more often than the
    table lists them. *)
Theorem get_subordinates_sublist df actor :
  get_subordinates actor df `sublist_of` names_of (rows df).
Proof.
  unfold get_subordinates, get_subordinates_body.
  destruct (empty df); [apply sublist_nil_l|].
  destruct (col df "Name") as [names|e]; [rewrite bind_Ok|apply sublist_nil_l].
  cbv zeta. destruct (empty (select df _)); [apply sublist_nil_l|].
  destruct (col (select df _) "Role") as [member_roles|e];
    [rewrite bind_Ok|apply sublist_nil_l].
  destruct (cell_eqb _ (VStr "Core Head")).
  { apply (try_except_bind_names df _ (λ roles, isin roles _)). }
  destruct (cell_eqb _ (VStr "Domain Head")).
  { destruct (has_column df "Domain").
    - destruct (col (select df _) "Domain") as [domains|e];
        [rewrite bind_Ok|apply sublist_nil_l].
      destruct (col df "Role") as [roles|e];
        [rewrite bind_Ok|apply sublist_nil_l].
      apply (try_except_bind_names df _
               (λ all_domains, mask_and _ (eq_mask all_domains _))).
    - apply (try_except_bind_names df _ (λ roles, eq_mask roles _)). }
  destruct (cell_eqb _ (VStr "Associate Head")); [|apply sublist_nil_l].
  destruct (has_column df "ReportsTo").
  - destruct (col df "Role") as [roles|e];
      [rewrite bind_Ok|apply sublist_nil_l].
    apply (try_except_bind_names df _
             (λ reports, mask_and _ (eq_mask reports _))).
  - apply (try_except_bind_names df _ (λ roles, eq_mask roles _)).
Qed.

(** ** More on authentication *)

Section AuthenticationMore.

Variable sha256_hexdigest : string → string.


Lemma authenticate_user_granted df username password user role :
  authenticate_user sha256_hexdigest username password df = Ok (true, user, role) →
  user = Some username
  ∧ ∃ r, member_named df username = Some r ∧ role = Some (cell r "Role").
Proof.
  unfold authenticate_user.
  destruct (empty df); [discriminate|].
  destruct (decide ("Name" ∈ columns df)) as [HN|HN];
    [|rewrite (col_absent _ _ HN); discriminate].
  rewrite (col_present _ _ HN), bind_Ok. cbv zeta.
  unfold select at 1. rewrite keep_eq_str.
  destruct (empty (mkDF _ _)) eqn:He; [discriminate|].
  unfold member_named.
  destruct (filter _ (rows df)) as [|r rest] eqn:E;
    [by rewrite empty_no_rows in He|].
  assert (Hsel : select df (eq_mask ((λ r, cell r "Name") <$> rows df) (VStr username))
                 = mkDF (columns df) (r :: rest)).
  { unfold select. by rewrite keep_eq_str, E. }
  rewrite !Hsel.
  assert (Hgrant : ∀ res : result (bool * option string * option value),
    (col (mkDF (columns df) (r :: rest)) "Role"
       ≫= λ roles, Ok (true, Some username, Some (iloc0 roles))) = res →
    res = Ok (true, user, role) →
    user = Some username ∧ ∃ r0, head (r :: rest) = Some r0
                               ∧ role = Some (cell r0 "Role")).
  { intros res <-. unfold col. destruct (has_column _ _); [|discriminate].
    rewrite bind_Ok. intros [= <- <-]. split; [done|]. by exists r. }
  destruct (has_column df "Password").
  - destruct (col _ "Password") as [passwords|e]; [rewrite bind_Ok|discriminate].
    destruct (looks_like_hash _); case_bool_decide; try discriminate;
      by apply Hgrant.
  - case_bool_decide; [by apply Hgrant | discriminate].
Qed.

(** A successful sign-in is always that of a member of the table: the name
    handed back is the one supplied, a row bears it, and the role handed
    back is the Role cell of the first such row. In particular nobody signs
    in against an empty table or under a name no row bears. *)
Theorem authenticate_user_sound df username password user role :
  authenticate_user sha256_hexdigest username password df = Ok (true, user, role) →
  user = Some username
  ∧ empty df = false
  ∧ ∃ r, member_named df username = Some r ∧ r ∈ rows df
       ∧ role = Some (cell r "Role").
Proof.
  intros Hrun.
  destruct (authenticate_user_granted _ _ _ _ _ Hrun) as (-> & r & Hm & ->).
  split; [done|]. split.
  - revert Hrun. unfold authenticate_user. by destruct (empty df).
  - exists r. split; [done|]. split; [|done].
    unfold member_named in Hm. apply head_Some_elem_of in Hm.
    by apply list_elem_of_filter in Hm as [_ ?].
Qed.

End AuthenticationMore.

(** ** More on task identifiers *)

Section TaskIdsMore.

Variable numeric_of_string : string → option Z.
Variable randint : nat → Z.

Lemma existing_ids_nil (n : Z) : n ∉ existing_ids_of numeric_of_string [].
Proof. unfold existing_ids_of. cbn. apply not_elem_of_empty. Qed.

Lemma sample_until_new_returned (existing : gset Z) (fuel : nat) : ∀ w new_id w',
  sample_until_new randint fuel existing w = Returned new_id w' →
  (new_id ∉ existing)
  ∧ ∃ k : nat, new_id = randint (draws w + k)%nat ∧ w' = drawn w (S k).
Proof.
  induction fuel as [|fuel IH]; intros w new_id w'; [discriminate|].
  cbn [sample_until_new]. unfold mbind, M_bind, randint_100000_999999.
  case_bool_decide as Hnew.
  - intros [= <- <-]. split; [done|]. exists 0%nat.
    by rewrite Nat.add_0_r.
  - change (mkWorld (disk w) (io_error w) (S (draws w)) (ui w)) with (drawn w 1).
    intros Hrun. apply IH in Hrun as (Hfree & k & -> & ->).
    split; [done|]. exists (S k). cbn [drawn draws disk io_error ui]. split.
    + apply (f_equal randint). lia.
    + unfold drawn. cbn [disk io_error draws ui].
      apply (f_equal (λ n, mkWorld (disk w) (io_error w) n (ui w))). lia.
Qed.

Lemma sample_until_new_no_raise (existing : gset Z) (fuel : nat) : ∀ w e w',
  sample_until_new randint fuel existing w ≠ Raised e w'.
Proof.
  induction fuel as [|fuel IH]; intros w e w'; [discriminate|].
  cbn [sample_until_new]. unfold mbind, M_bind, randint_100000_999999.
  case_bool_decide; [discriminate | apply IH].
Qed.

(** Whatever the random source does within its range and however many
    draws are allowed, an identifier that [generate_unique_taskid] returns
    lies in 100000..999999 and is none of the identifiers of the table; the
    call only consumes draws, and it never raises. *)
Theorem generate_unique_taskid_safe fuel tasks_df w :
  (∀ i, 100000 ≤ randint i ≤ 999999)%Z →
  (∀ new_id w',
     generate_unique_taskid numeric_of_string randint fuel tasks_df w
     = Returned new_id w' →
     (100000 ≤ new_id ≤ 999999)%Z
     ∧ (new_id ∉ existing_ids_of numeric_of_string (task_id_cells tasks_df))
     ∧ (VInt new_id ∉ task_id_cells tasks_df)
     ∧ ∃ k : nat, w' = drawn w (S k))
  ∧ (∀ e w',
     generate_unique_taskid numeric_of_string randint fuel tasks_df w
     ≠ Raised e w').
Proof.
  intros Hrange.
  assert (Hcells : ∀ n, n ∉ existing_ids_of numeric_of_string (task_id_cells tasks_df)
                        → VInt n ∉ task_id_cells tasks_df).
  { intros n Hn Hin. by apply Hn, existing_ids_numeric. }
  unfold generate_unique_taskid.
  destruct (empty tasks_df || negb (has_column tasks_df "TaskID")) eqn:E.
  - split; [|discriminate]. intros new_id w' [= <- <-].
    rewrite (task_id_cells_nil _ E) in *.
    split; [apply Hrange|]. split; [apply existing_ids_nil|].
    split; [apply not_elem_of_nil|].
    by exists 0%nat.
  - apply orb_false_iff in E as [_ HT]. apply negb_false_iff in HT.
    unfold task_id_cells in *. rewrite HT in *. unfold col. rewrite HT.
    split.
    + intros new_id w'. rewrite run_lift_Ok. intros Hrun.
      apply sample_until_new_returned in Hrun as (Hfree & k & -> & ->).
      split; [apply Hrange|]. split; [done|]. split; [by apply Hcells|].
      by exists k.
    + intros e w'. rewrite run_lift_Ok. apply sample_until_new_no_raise.
Qed.

End TaskIdsMore.

(** ** The workbook *)

Lemma run_bind {A B} (m : M A) (k : A → M B) w :
  (m ≫= k) w
  = match m w with
    | Returned a w' => k a w'
    | Raised e w' => Raised e w'
    | Unfinished => Unfinished
    end.
Proof. done. Qed.

Lemma read_excel_or_run sheet default_df w :
  read_excel_or sheet default_df w
  = Returned (default default_df (disk w ≫= (.!! sheet))) w.
Proof. done. Qed.


(** When the workbook cannot be written, [update_tasks_sheet] answers
    [False], shows the error, and leaves the workbook as it was. *)
Lemma update_tasks_sheet_failure df w e :
  io_error w = Some e →
  update_tasks_sheet df w
  = Returned false
      (mkWorld (disk w) (io_error w) (draws w)
               (ui w ++ [Error ("Error updating tasks: " ++ e)])).
Proof.
  intros Hio. unfold update_tasks_sheet, excel_write, mbind, M_bind, st.
  rewrite Hio. unfold mret, M_ret. by rewrite Hio.
Qed.

(** ** Rows built from dicts, rows restricted to columns *)

Lemma cell_visible cols r c :
  cell (visible cols r) c = if bool_decide (c ∈ cols) then cell r c else VNaN.
Proof.
  unfold cell, visible. rewrite map_lookup_filter.
  destruct (r !! c) as [v|]; simpl; [|by case_bool_decide].
  case_guard as Hc; simpl in Hc; simpl.
  - by rewrite bool_decide_eq_true_2.
  - by rewrite bool_decide_eq_false_2.
Qed.

Lemma cell_visible_in cols r c : c ∈ cols → cell (visible cols r) c = cell r c.
Proof. intros. by rewrite cell_visible, bool_decide_eq_true_2. Qed.

Lemma record_dict_set d k v : record (dict_set d k v) = <[k := v]> (record d).
Proof.
  unfold record. induction d as [|[k' v'] d IH]; cbn [dict_set]; [done|].
  case_bool_decide as Hk.
  - subst k'. cbn [list_to_map foldr uncurry]. simpl.
    by rewrite insert_insert_eq.
  - simpl. rewrite IH. by apply insert_insert_ne.
Qed.

Lemma dict_set_keys d k v : k ∈ d.*1 → (dict_set d k v).*1 = d.*1.
Proof.
  induction d as [|[k' v'] d IH]; cbn [dict_set]; intros Hk.
  - by apply elem_of_nil in Hk.
  - case_bool_decide as Hk'; [by subst|].
    rewrite !fmap_cons. cbn [fst]. f_equal. apply IH.
    apply elem_of_cons in Hk as [->|Hk]; done.
Qed.

Lemma dict_set_keys_new d k v : k ∉ d.*1 → (dict_set d k v).*1 = (d.*1 ++ [k])%list.
Proof.
  induction d as [|[k' v'] d IH]; cbn [dict_set]; intros Hk; [done|].
  rewrite fmap_cons in Hk. cbn [fst] in Hk.
  apply not_elem_of_cons in Hk as [Hne Hk].
  rewrite bool_decide_eq_false_2 by done.
  rewrite !fmap_cons. cbn [fst app]. f_equal. by apply IH.
Qed.

Lemma dashes_keys (cols : list string) :
  ((λ c, (c, VStr "-")) <$> cols).*1 = cols.
Proof. rewrite <- list_fmap_compose. apply list_fmap_id. Qed.

Lemma cell_dashes (cols : list string) c :
  c ∈ cols → cell (record ((λ c, (c, VStr "-")) <$> cols)) c = VStr "-".
Proof.
  intros Hc. unfold cell, record.
  rewrite (elem_of_list_to_map_1' _ c (VStr "-")); [done| |].
  - intros y Hy. apply list_elem_of_fmap in Hy as (c' & [= -> ->] & _). done.
  - apply list_elem_of_fmap. by exists c.
Qed.

Lemma cell_insert_eq (r : gmap string value) c v : cell (<[c := v]> r) c = v.
Proof. unfold cell. by rewrite lookup_insert_eq. Qed.

Lemma cell_insert_ne (r : gmap string value) c c' v :
  c ≠ c' → cell (<[c := v]> r) c' = cell r c'.
Proof. intros. unfold cell. by rewrite lookup_insert_ne. Qed.

Lemma pd_concat_same_columns a fields :
  fields.*1 = columns a →
  pd_concat a (frame_of_dict fields)
  = mkDF (columns a)
         (((visible (columns a) <$> rows a)
           ++ [visible (columns a) (record fields)])%list).
Proof.
  intros Hk. unfold pd_concat, frame_of_dict. cbn [columns rows]. rewrite Hk.
  f_equal. rewrite filter_none; [apply app_nil_r|]. intros c Hc. tauto.
Qed.

(** ** More on registration *)

Lemma cond_set_spec (d : list (string * value)) (b : bool) k v :
  (b = true → k ∈ d.*1) →
  (if b then dict_set d k v else d).*1 = d.*1
  ∧ ∀ c, cell (record (if b then dict_set d k v else d)) c
         = if b && bool_decide (c = k) then v else cell (record d) c.
Proof.
  intros Hk. destruct b; [|done]. split; [by apply dict_set_keys, Hk|].
  intros c. rewrite record_dict_set. cbn [andb]. case_bool_decide as Hc.
  - subst. apply cell_insert_eq.
  - by apply cell_insert_ne.
Qed.

Section RegistrationMore.

Variable sha256_hexdigest : string → string.
Variable numeric_of_string : string → option Z.
Variable randint : nat → Z.

(** What lines 140-161 leave behind, by the answer they give. *)
Lemma register_user_save_returned fuel name role m w ok msg w' :
  register_user_save numeric_of_string randint fuel name role m w
  = Returned (ok, msg) w' →
  (∃ k : nat, draws w' = (k + draws w)%nat) ∧ ui w' = ui w
  ∧ (ok = false →
       disk w' = disk w
       ∧ ∃ e, io_error w = Some e ∧ msg = "Error saving user: " ++ e)
  ∧ (ok = true →
       io_error w = None
       ∧ ∃ new_id placeholder,
           disk w'
           = Some (<["Members" := m]>
                     (<["Tasks" := mkDF (columns (tasks_on_disk w))
                                     ((visible (columns (tasks_on_disk w))
                                         <$> rows (tasks_on_disk w))
                                      ++ [placeholder])%list]> ∅))
           ∧ (∀ c, c ∈ columns (tasks_on_disk w) →
                   cell placeholder c = placeholder_cell name role new_id c)
           ∧ (new_id ∉ existing_ids_of numeric_of_string
                         (task_id_cells (tasks_on_disk w)))).
Proof.
  unfold register_user_save.
  rewrite run_bind, read_excel_or_run. fold (tasks_on_disk w).
  set (old := tasks_on_disk w). cbv zeta.
  set (d0 := (λ c, (c, VStr "-")) <$> columns old).
  destruct (cond_set_spec d0 (has_column old "AssignedTo") "AssignedTo" (VStr name))
    as [Hk1 Hc1].
  { intros H%bool_decide_eq_true. unfold d0. by rewrite dashes_keys. }
  set (d1 := if has_column old "AssignedTo" then _ else d0) in *.
  destruct (cond_set_spec d1 (has_column old "Role") "Role" (VStr role))
    as [Hk2 Hc2].
  { intros H%bool_decide_eq_true. rewrite Hk1. unfold d0. by rewrite dashes_keys. }
  set (d2 := if has_column old "Role" then _ else d1) in *.
  assert (Hfinish : ∀ (new_task : list (string * value)) w1 new_id,
    new_task.*1 = columns old →
    (∀ c, c ∈ columns old →
          cell (record new_task) c = placeholder_cell name role new_id c) →
    (new_id ∉ existing_ids_of numeric_of_string (task_id_cells old)) →
    (∃ k : nat, draws w1 = (k + draws w)%nat) → ui w1 = ui w →
    disk w1 = disk w → io_error w1 = io_error w →
    ((failure ← excel_write true
                  [("Tasks", pd_concat old (frame_of_dict new_task));
                   ("Members", m)];
      match failure with
      | None => mret (true, "Registration successful! You can now log in.")
      | Some e => mret (false, "Error saving user: " ++ e)
      end) : M (bool * string)) w1 = Returned (ok, msg) w' →
    (∃ k : nat, draws w' = (k + draws w)%nat) ∧ ui w' = ui w
    ∧ (ok = false →
         disk w' = disk w
         ∧ ∃ e, io_error w = Some e ∧ msg = "Error saving user: " ++ e)
    ∧ (ok = true →
         io_error w = None
         ∧ ∃ new_id placeholder,
             disk w'
             = Some (<["Members" := m]>
                       (<["Tasks" := mkDF (columns old)
                                       ((visible (columns old) <$> rows old)
                                        ++ [placeholder])%list]> ∅))
             ∧ (∀ c, c ∈ columns old →
                     cell placeholder c = placeholder_cell name role new_id c)
             ∧ (new_id ∉ existing_ids_of numeric_of_string (task_id_cells old)))).
  { intros new_task w1 new_id Hkeys Hcells Hfresh Hdraws Hui Hdisk Hio.
    rewrite run_bind. unfold excel_write. rewrite Hio.
    destruct (io_error w) as [e|] eqn:Hw.
    - intros [= <- <- <-]. split; [done|]. split; [done|].
      split; [|discriminate]. intros _. split; [done|]. by exists e.
    - intros [= <- <- <-]. cbn [draws ui disk foldl].
      split; [done|]. split; [done|]. split; [discriminate|]. intros _.
      split; [done|].
      exists new_id, (visible (columns old) (record new_task)).
      split; [by rewrite pd_concat_same_columns|]. split; [|done].
      intros c Hc. rewrite cell_visible_in by done. by apply Hcells. }
  assert (Hkeys2 : d2.*1 = columns old).
  { rewrite Hk2, Hk1. unfold d0. by rewrite dashes_keys. }
  rewrite run_bind.
  destruct (has_column old "TaskID") eqn:HT.
  - rewrite run_bind.
    destruct (generate_unique_taskid numeric_of_string randint fuel old w)
      as [new_id w1| |] eqn:Hgen; [|discriminate|discriminate].
    rewrite run_ret.
    assert (Hgen' : (new_id ∉ existing_ids_of numeric_of_string (task_id_cells old))
                    ∧ ∃ k : nat, w1 = drawn w (S k)).
    { revert Hgen. unfold generate_unique_taskid.
      destruct (empty old || negb (has_column old "TaskID")) eqn:E.
      - intros [= <- <-]. rewrite (task_id_cells_nil _ E).
        split; [apply existing_ids_nil | by exists 0%nat].
      - unfold task_id_cells, col. rewrite HT, run_lift_Ok. intros Hrun.
        apply sample_until_new_returned in Hrun as (? & k & _ & ->); eauto. }
    destruct Hgen' as (Hfresh & k & ->).
    apply (Hfinish _ _ new_id); try done; [| |by exists (S k)].
    + apply bool_decide_eq_true in HT.
      rewrite dict_set_keys; [done | by rewrite Hkeys2].
    + intros c Hc. rewrite record_dict_set. unfold placeholder_cell.
      case_bool_decide as H1; [subst; apply cell_insert_eq|].
      rewrite cell_insert_ne by done. rewrite Hc2, Hc1.
      case_bool_decide as H2.
      { subst. by rewrite has_column_true. }
      rewrite andb_false_r. case_bool_decide as H3.
      { subst. by rewrite has_column_true. }
      rewrite andb_false_r. by apply cell_dashes.
  - rewrite run_ret.
    apply (Hfinish _ _ 0%Z); try done; [| |by exists 0%nat].
    + intros c Hc. unfold placeholder_cell.
      rewrite bool_decide_eq_false_2.
      2:{ intros ->. apply bool_decide_eq_false in HT. done. }
      rewrite Hc2, Hc1.
      case_bool_decide as H2.
      { subst. by rewrite has_column_true. }
      rewrite andb_false_r. case_bool_decide as H3.
      { subst. by rewrite has_column_true. }
      rewrite andb_false_r. by apply cell_dashes.
    + unfold task_id_cells. rewrite HT. apply existing_ids_nil.
Qed.


Lemma register_user_unfold fuel name password role members_df w :
  register_user sha256_hexdigest numeric_of_string randint
                fuel name password role members_df w
  = if empty members_df then
      register_user_save numeric_of_string randint fuel name role
        (members_with members_df name role (sha256_hexdigest password)) w
    else
      match col members_df "Name" with
      | Raise e => Raised e w
      | Ok names =>
          if existsb (λ x, cell_eqb x (VStr name)) names
          then Returned (false, "User already exists.") w
          else register_user_save numeric_of_string randint fuel name role
                 (members_with members_df name role (sha256_hexdigest password)) w
      end.
Proof.
  unfold register_user, members_with, hash_password, new_user_fields. cbv zeta.
  destruct (empty members_df) eqn:He; [done|].
  destruct (col members_df "Name") as [names|e]; [|done].
  rewrite run_lift_Ok. by destruct (existsb _ names).
Qed.


(** What a successful registration leaves in the workbook: exactly two
    sheets. Members is the old member table with the new member appended
    (or the new member alone when the table was empty); Tasks is the task
    sheet as it was on disk with one placeholder row appended, which holds
    a fresh identifier, the new member's name and role, and "-" in every
    other column. No existing member bore the name. *)
Theorem register_user_success fuel name password role members_df w msg w' :
  register_user sha256_hexdigest numeric_of_string randint
                fuel name password role members_df w
  = Returned (true, msg) w' →
  io_error w = None
  ∧ (empty members_df = false →
     ∀ m, m ∈ rows members_df → cell m "Name" ≠ VStr name)
  ∧ ∃ new_id placeholder,
      disk w'
      = Some (<["Members" := members_with members_df name role
                               (sha256_hexdigest password)]>
                (<["Tasks" := mkDF (columns (tasks_on_disk w))
                                ((visible (columns (tasks_on_disk w))
                                    <$> rows (tasks_on_disk w))
                                 ++ [placeholder])%list]> ∅))
      ∧ (∀ c, c ∈ columns (tasks_on_disk w) →
              cell placeholder c = placeholder_cell name role new_id c)
      ∧ (new_id ∉ existing_ids_of numeric_of_string
                    (task_id_cells (tasks_on_disk w))).
Proof.
  rewrite register_user_unfold.
  destruct (empty members_df) eqn:He.
  - intros H%register_user_save_returned.
    destruct H as (_ & _ & _ & Hok). destruct (Hok eq_refl) as [Hio Hrest].
    split; [done|]. split; [discriminate|]. done.
  - destruct (col members_df "Name") as [names|e] eqn:Hcol; [|discriminate].
    destruct (existsb _ names) eqn:Hex; [discriminate|].
    intros H%register_user_save_returned.
    destruct H as (_ & _ & _ & Hok). destruct (Hok eq_refl) as [Hio Hrest].
    split; [done|]. split; [|done].
    intros _ m Hm Hname. unfold col in Hcol.
    destruct (has_column members_df "Name"); [|discriminate].
    injection Hcol as <-.
    assert (Htrue : existsb (λ x, cell_eqb x (VStr name))
                      ((λ r, cell r "Name") <$> rows members_df) = true);
      [|congruence].
    apply existsb_exists. exists (cell m "Name"). split.
    + apply list_elem_of_In. by apply (list_elem_of_fmap_2 (λ r, cell r "Name")).
    + rewrite Hname. simpl. by apply bool_decide_eq_true.
Qed.




End RegistrationMore.

(** ** The select boxes of the dashboard *)

Lemma cell_eqb_refl x : x ≠ VNaN → cell_eqb x x = true.
Proof. intros. rewrite cell_eqb_present by done. by apply bool_decide_eq_true. Qed.

Lemma keep_nonempty {A} (f : A → bool) (l : list A) x :
  x ∈ l → f x = true → keep l (f <$> l) ≠ [].
Proof.
  induction l as [|y l IH]; intros Hx Hf; [by apply elem_of_nil in Hx|].
  rewrite fmap_cons. cbn [keep]. destruct (f y) eqn:Hy; [done|].
  apply elem_of_cons in Hx as [->|Hx]; [congruence | by apply IH].
Qed.

Lemma keep_all_false {A} (f : A → bool) (l : list A) :
  (∀ x, f x = false) → keep l (f <$> l) = [].
Proof.
  intros Hf. induction l as [|y l IH]; [done|].
  rewrite fmap_cons. cbn [keep]. by rewrite Hf.
Qed.

(** The label of one option: computed when some row bears the identifier,
    an [IndexError] for a missing identifier. *)
Lemma option_label_spec df x :
  "TaskID" ∈ columns df → "TaskName" ∈ columns df →
  (x ∈ ids_of df → x ≠ VNaN → ∃ label, option_label df x = Ok label)
  ∧ (x = VNaN → option_label df x = Raise index_error).
Proof.
  intros HT HN. unfold option_label.
  rewrite (col_present _ _ HT), bind_Ok, eq_mask_cells.
  rewrite col_present by done. rewrite bind_Ok. unfold select. cbn [rows].
  split.
  - intros Hx Hnan. unfold ids_of in Hx.
    apply list_elem_of_fmap in Hx as (r & -> & Hr).
    pose proof (keep_nonempty (λ r0, cell_eqb (cell r0 "TaskID") (cell r "TaskID"))
                  (rows df) r Hr (cell_eqb_refl _ Hnan)) as Hne.
    destruct (keep _ _) as [|r1 rest]; [done|]. cbn. eauto.
  - intros ->. rewrite keep_all_false; [done|]. intros r. apply cell_eqb_NaN_r.
Qed.

Lemma labels_spec df (options : list value) :
  "TaskID" ∈ columns df → "TaskName" ∈ columns df →
  options ⊆ ids_of df →
  (VNaN ∉ options → ∃ labels, mapM (option_label df) options = Ok labels)
  ∧ (VNaN ∈ options → mapM (option_label df) options = Raise index_error).
Proof.
  intros HT HN. induction options as [|x options IH]; intros Hsub.
  - split; [by exists [] | intros H; by apply elem_of_nil in H].
  - assert (Hx : x ∈ ids_of df) by (apply Hsub; left).
    destruct IH as [IHok IHbad]; [intros y Hy; apply Hsub; by right|].
    destruct (option_label_spec df x HT HN) as [Hok Hbad].
    cbn [mapM]. split.
    + intros Hno. apply not_elem_of_cons in Hno as [Hne Hno].
      destruct (Hok Hx) as [label ->]; [done|].
      destruct (IHok Hno) as [labels ->]. by eexists.
    + intros Hin. destruct (decide (x = VNaN)) as [Heq|Hne].
      * by rewrite (Hbad Heq).
      * apply elem_of_cons in Hin as [Heq|Hin]; [done|].
        destruct (Hok Hx Hne) as [label ->].
        by rewrite bind_Ok, (IHbad Hin).
Qed.

Lemma form_options_spec df :
  empty df = false →
  (options ← col df "TaskID"; _ ← mapM (option_label df) options; Ok options)
  = if negb (has_column df "TaskID") then Raise (KeyError "TaskID")
    else if negb (has_column df "TaskName") then Raise (KeyError "TaskName")
    else if bool_decide (VNaN ∈ ids_of df) then Raise index_error
    else Ok (ids_of df).
Proof.
  intros He. unfold col at 1. destruct (has_column df "TaskID") eqn:HT; [|done].
  cbn [negb]. rewrite bind_Ok. fold (ids_of df).
  apply bool_decide_eq_true in HT.
  destruct (has_column df "TaskName") eqn:HN; cbn [negb].
  - apply bool_decide_eq_true in HN.
    destruct (labels_spec df (ids_of df) HT HN) as [Hok Hbad]; [done|].
    case_bool_decide as Hnan.
    + by rewrite (Hbad Hnan).
    + by destruct (Hok Hnan) as [labels ->].
  - unfold ids_of. destruct (rows df) as [|r rest] eqn:Hrows;
      [by rewrite empty_no_rows in He|].
    rewrite fmap_cons. cbn [mapM]. unfold option_label.
    rewrite (col_present _ _ HT), bind_Ok.
    rewrite col_absent; [done|]. by apply bool_decide_eq_false in HN.
Qed.

Lemma update_form_options_cases user_name user_role view_df user_tasks :
  user_tasks_of user_name user_role view_df = Ok user_tasks →
  update_form_options user_name user_role view_df
  = if empty user_tasks then Ok None
    else if negb (has_column user_tasks "TaskID") then Raise (KeyError "TaskID")
    else if negb (has_column user_tasks "TaskName") then Raise (KeyError "TaskName")
    else if bool_decide (VNaN ∈ ids_of user_tasks) then Raise index_error
    else Ok (Some (ids_of user_tasks)).
Proof.
  intros Hut. unfold update_form_options. rewrite Hut, bind_Ok.
  destruct (empty user_tasks) eqn:He; [done|].
  transitivity
    ((options ← col user_tasks "TaskID";
      _ ← mapM (option_label user_tasks) options; Ok options)
     ≫= λ options, Ok (Some options)).
  { destruct (col user_tasks "TaskID") as [options|e]; [|done].
    rewrite !bind_Ok. by destruct (mapM _ options). }
  rewrite (form_options_spec user_tasks He).
  repeat (destruct (negb _); [done|]). by case_bool_decide.
Qed.

(** When the "Select Task" box of the update tab can be drawn. With the
    tasks on offer non-empty: a missing TaskID or TaskName column is a
    [KeyError], one task with a missing identifier is an [IndexError] for
    the whole tab, and otherwise the options are the identifiers on offer,
    in row order. *)
Theorem update_form_options_spec user_name user_role view_df user_tasks :
  user_tasks_of user_name user_role view_df = Ok user_tasks →
  update_form_options user_name user_role view_df
  = if empty user_tasks then Ok None
    else if negb (has_column user_tasks "TaskID") then Raise (KeyError "TaskID")
    else if negb (has_column user_tasks "TaskName") then Raise (KeyError "TaskName")
    else if bool_decide (VNaN ∈ ids_of user_tasks) then Raise index_error
    else Ok (Some (ids_of user_tasks)).
Proof. apply update_form_options_cases. Qed.

Lemma update_form_options_shown user_name user_role view_df options :
  update_form_options user_name user_role view_df = Ok (Some options) →
  ∃ user_tasks,
    user_tasks_of user_name user_role view_df = Ok user_tasks
    ∧ options = ids_of user_tasks ∧ (VNaN ∉ options).
Proof.
  destruct (user_tasks_of user_name user_role view_df) as [ut|e] eqn:Hut.
  - rewrite (update_form_options_cases _ _ _ ut Hut).
    destruct (empty ut); [discriminate|].
    repeat (destruct (negb _); [discriminate|]).
    case_bool_decide; [discriminate|]. intros [= <-]. by exists ut.
  - unfold update_form_options. by rewrite Hut.
Qed.

(** ** The "Delete Task" tab *)

Lemma may_delete_spec user_role :
  cell_eqb user_role (VStr "Core Head") || cell_eqb user_role (VStr "Domain Head")
  = bool_decide (may_delete user_role).
Proof.
  rewrite !cell_eqb_VStr. unfold may_delete.
  destruct (decide (user_role = VStr "Core Head")) as [->|H1]; [done|].
  destruct (decide (user_role = VStr "Domain Head")) as [->|H2]; [done|].
  rewrite !bool_decide_eq_false_2; [done|tauto|done|done].
Qed.

Lemma keep_ne (rs : list (gmap string value)) c v :
  v ≠ VNaN →
  keep rs (ne_mask ((λ r, cell r c) <$> rs) v) = filter (λ r, cell r c ≠ v) rs.
Proof.
  intros Hv. unfold ne_mask. rewrite <- list_fmap_compose.
  apply keep_mask. intros r. cbn. rewrite cell_eqb_present by done.
  by destruct (decide (cell r c = v));
    [rewrite bool_decide_eq_true_2, bool_decide_eq_false_2
    |rewrite bool_decide_eq_false_2, bool_decide_eq_true_2]; auto.
Qed.

(** The workbook is never changed from the delete tab by a role other than
    Core Head or Domain Head, nor without the confirmation box checked,
    however the run ends. *)
Theorem delete_task_guarded user_role view_df tasks_df form w w' :
  ¬ may_delete user_role ∨ confirm_delete form = false →
  world_after (show_dashboard_delete_task user_role view_df tasks_df form w)
  = Some w' →
  disk w' = disk w.
Proof.
  intros Hguard. unfold show_dashboard_delete_task. rewrite may_delete_spec.
  case_bool_decide as Hrole.
  - destruct Hguard as [?|Hconfirm]; [done|]. rewrite Hconfirm.
    destruct (negb (empty view_df)); [|by intros [= <-]].
    rewrite run_bind. destruct (delete_form_options view_df) as [options|e];
      [|by intros [= <-]].
    unfold lift. rewrite run_st.
    destruct (options !! delete_index form); [|by intros [= <-]].
    rewrite run_st. by intros [= <-].
  - rewrite run_st. by intros [= <-].
Qed.

(** A successful deletion removes every row of the task table that bears
    the selected identifier, whether visible to the user or not, and keeps
    all other rows in order; the identifier is one of the view, the role is
    Core Head or Domain Head, the box was checked, and the Tasks sheet now
    holds the remaining table. *)
Theorem delete_task_success user_role view_df tasks_df form w tasks_df' w' :
  show_dashboard_delete_task user_role view_df tasks_df form w
  = Returned (tasks_df', Some true) w' →
  ∃ task_to_delete,
    ids_of view_df !! delete_index form = Some task_to_delete
    ∧ task_to_delete ≠ VNaN
    ∧ may_delete user_role ∧ confirm_delete form = true
    ∧ columns tasks_df' = columns tasks_df
    ∧ rows tasks_df'
      = filter (λ t, cell t "TaskID" ≠ task_to_delete) (rows tasks_df)
    ∧ disk w' = Some (<["Tasks" := tasks_df']> (default ∅ (disk w))).
Proof.
  unfold show_dashboard_delete_task. rewrite may_delete_spec.
  case_bool_decide as Hrole; [|rewrite run_st; discriminate].
  destruct (empty view_df) eqn:He; cbn [negb]; [rewrite run_st; discriminate|].
  unfold delete_form_options. rewrite (form_options_spec view_df He).
  repeat (destruct (negb _); [discriminate|]).
  case_bool_decide as Hnan; [discriminate|].
  rewrite run_lift_Ok, run_st.
  destruct (ids_of view_df !! delete_index form) as [tid|] eqn:Hsel;
    [|discriminate].
  assert (Htid : tid ≠ VNaN).
  { intros ->. apply Hnan. by eapply list_elem_of_lookup_2. }
  destruct (confirm_delete form); [|rewrite run_st; discriminate].
  destruct (decide ("TaskID" ∈ columns tasks_df)) as [HT|HT];
    [|rewrite (col_absent _ _ HT); discriminate].
  rewrite (col_present _ _ HT), run_lift_Ok. cbv zeta.
  rewrite run_bind.
  destruct (update_tasks_sheet _ _) as [[|] w1| |] eqn:Hsave;
    [| discriminate | discriminate | discriminate].
  apply update_tasks_sheet_saved in Hsave as [Hdisk Hui].
  rewrite !run_st, run_ret. intros [= <- <-].
  exists tid. cbn [disk columns rows select].
  repeat (split; [done|]). split; [|done]. by apply keep_ne.
Qed.

(** ** More on the "Update Status" tab *)

(** A successful update to Done: the description typed is not blank; every
    row bearing the selected identifier gets Status "Done" and the text as
    typed for Description, whatever it held before; rows with another
    identifier keep all their fields, and no row changes outside Status and
    Description. The Tasks sheet holds that table. *)
Theorem update_status_done_recorded
    user_name user_role view_df tasks_df form w tasks_df' w' :
  new_status form = Done →
  show_dashboard_update_status user_name user_role view_df tasks_df form w
  = Returned (tasks_df', Some true) w' →
  ∃ options task_to_update,
    update_form_options user_name user_role view_df = Ok (Some options)
    ∧ options !! task_index form = Some task_to_update
    ∧ all_chars is_space (description_text form) = false
    ∧ disk w' = Some (<["Tasks" := tasks_df']> (default ∅ (disk w)))
    ∧ length (rows tasks_df') = length (rows tasks_df)
    ∧ ∀ i t, rows tasks_df !! i = Some t →
        ∃ t', rows tasks_df' !! i = Some t'
          ∧ (∀ c, c ≠ "Status" → c ≠ "Description" → t' !! c = t !! c)
          ∧ (cell t "TaskID" = task_to_update →
             cell t' "Status" = VStr "Done"
             ∧ cell t' "Description" = VStr (description_text form))
          ∧ (cell t "TaskID" ≠ task_to_update →
             ∀ c, c ∈ columns tasks_df → cell t' c = cell t c).
Proof.
  intros Hdone Hrun. unfold show_dashboard_update_status in Hrun.
  destruct (update_form_options user_name user_role view_df)
    as [[options|]|e] eqn:Hform; [| discriminate Hrun | discriminate Hrun].
  rewrite run_lift_Ok in Hrun.
  destruct (options !! task_index form) as [tid|] eqn:Hsel; [|discriminate Hrun].
  exists options, tid. split; [done|]. split; [done|].
  destruct (update_form_options_shown _ _ _ _ Hform) as (ut & _ & _ & Hnan).
  assert (Htid : tid ≠ VNaN).
  { intros ->. apply Hnan. by eapply list_elem_of_lookup_2. }
  unfold update_status_submit in Hrun. rewrite Hdone in Hrun.
  rewrite !bool_decide_eq_true_2 in Hrun by done. cbn [andb] in Hrun.
  destruct (truthy (strip (description_text form))) eqn:Hblank;
    cbn [negb] in Hrun; [|rewrite run_st in Hrun; discriminate Hrun].
  split.
  { destruct (all_chars is_space (description_text form)) eqn:Hall; [|done].
    apply strip_blank_iff in Hall. congruence. }
  destruct (decide ("TaskID" ∈ columns tasks_df)) as [HT|HT];
    [|rewrite (col_absent _ _ HT) in Hrun; discriminate Hrun].
  rewrite (col_present _ _ HT), run_lift_Ok, eq_mask_cells in Hrun.
  set (df1 := loc_set tasks_df _ "Status" _) in Hrun.
  rewrite run_bind in Hrun.
  assert (HT1 : "TaskID" ∈ columns df1) by (by apply loc_set_columns).
  rewrite (col_present _ _ HT1), run_lift_Ok, run_ret in Hrun.
  assert (Hrows1 : rows df1
    = (λ r, if cell_eqb (cell r "TaskID") tid
            then <["Status" := VStr "Done"]> r
            else if has_column tasks_df "Status" then r else delete "Status" r)
      <$> rows tasks_df) by apply loc_set_rows.
  assert (Hid1 : ∀ r, cell (if cell_eqb (cell r "TaskID") tid
            then <["Status" := VStr "Done"]> r
            else if has_column tasks_df "Status" then r else delete "Status" r)
            "TaskID" = cell r "TaskID").
  { intros r. unfold cell. destruct (cell_eqb _ _);
      [by rewrite lookup_insert_ne|].
    destruct (has_column _ _); [done|]. by rewrite lookup_delete_ne. }
  rewrite eq_mask_cells in Hrun.
  set (df2 := loc_set df1 _ "Description" _) in Hrun.
  rewrite run_bind in Hrun.
  destruct (update_tasks_sheet df2 w) as [[|] w1| |] eqn:Hsave;
    [| discriminate Hrun | discriminate Hrun | discriminate Hrun].
  apply update_tasks_sheet_saved in Hsave as [Hdisk Hui].
  rewrite !run_st, run_ret in Hrun. injection Hrun as <- <-.
  cbn [disk]. split; [done|].
  unfold df2. rewrite loc_set_rows, Hrows1, <- list_fmap_compose.
  split; [by rewrite length_fmap|].
  intros i t Hi. rewrite list_lookup_fmap, Hi. eexists. split; [reflexivity|].
  cbn [compose]. rewrite Hid1.
  rewrite cell_eqb_present by done.
  case_bool_decide as Hmatch.
  - split; [|split; [|done]].
    + intros c Hs Hd. by rewrite !lookup_insert_ne.
    + intros _. split; [|apply cell_insert_eq].
      rewrite cell_insert_ne by done. apply cell_insert_eq.
  - split; [|split; [done|]].
    + intros c Hs Hd.
      destruct (has_column df1 "Description");
        [|rewrite lookup_delete_ne by done];
        (destruct (has_column tasks_df "Status");
          [done | by rewrite lookup_delete_ne]).
    + intros _ c Hc. unfold cell.
      assert (Hc1 : c ∈ columns df1) by (by apply loc_set_columns).
      destruct (has_column df1 "Description") eqn:HD1.
      * destruct (has_column tasks_df "Status") eqn:HS; [done|].
        rewrite lookup_delete_ne; [done|].
        intros <-. by apply bool_decide_eq_false in HS.
      * rewrite lookup_delete_ne.
        2:{ intros <-. by apply bool_decide_eq_false in HD1. }
        destruct (has_column tasks_df "Status") eqn:HS; [done|].
        rewrite lookup_delete_ne; [done|].
        intros <-. by apply bool_decide_eq_false in HS.
Qed.

(** ** More on the task view *)

Lemma filter_idemp {A} (P : A → Prop) `{!∀ x, Decision (P x)} (l : list A) :
  filter P (filter P l) = filter P l.
Proof.
  induction l as [|x l IH]; [done|]. rewrite filter_cons.
  destruct (decide (P x)); [|done]. by rewrite filter_cons_True, IH.
Qed.

Lemma mask_or_fmap {A} (f g : A → bool) (l : list A) :
  mask_or (f <$> l) (g <$> l) = (λ x, f x || g x) <$> l.
Proof.
  unfold mask_or. induction l; [done|].
  rewrite !fmap_cons. cbn [zip_with]. by f_equal.
Qed.

Lemma select_eq_str df c s :
  c ∈ columns df →
  select df (eq_mask ((λ r, cell r c) <$> rows df) (VStr s))
  = mkDF (columns df) (filter (λ r, cell r c = VStr s) (rows df)).
Proof. intros. unfold select. by rewrite keep_eq_str. Qed.

Lemma show_dashboard_view_own_tasks_aux user_name tasks_df members_df :
  "AssignedTo" ∈ columns tasks_df →
  show_dashboard_view user_name (VStr "Junior Head") tasks_df members_df
  = Ok (mkDF (columns tasks_df)
             (filter (λ t, cell t "AssignedTo" = VStr user_name) (rows tasks_df))).
Proof.
  intros HA. unfold show_dashboard_view. simpl cell_eqb.
  rewrite (col_present _ _ HA), bind_Ok. by rewrite select_eq_str.
Qed.

(** For a user who is none of Core Head, Domain Head, Associate Head (a
    Junior Head, that is) the view is exactly the tasks assigned to the
    user's own name. *)
Theorem show_dashboard_view_own_tasks user_name user_role tasks_df members_df :
  ¬ may_assign user_role →
  "AssignedTo" ∈ columns tasks_df →
  show_dashboard_view user_name user_role tasks_df members_df
  = Ok (mkDF (columns tasks_df)
             (filter (λ t, cell t "AssignedTo" = VStr user_name) (rows tasks_df))).
Proof.
  intros Hrole HA. unfold show_dashboard_view. rewrite !cell_eqb_VStr.
  unfold may_assign in Hrole.
  rewrite !bool_decide_eq_false_2 by tauto.
  rewrite (col_present _ _ HA), bind_Ok. by rewrite select_eq_str.
Qed.

(** For a Domain Head and for an Associate Head the view is exactly the
    tasks assigned to the user's own name or to one of the names
    [get_subordinates] returns for the user. *)
Theorem show_dashboard_view_heads user_name user_role tasks_df members_df :
  user_role = VStr "Domain Head" ∨ user_role = VStr "Associate Head" →
  "AssignedTo" ∈ columns tasks_df →
  show_dashboard_view user_name user_role tasks_df members_df
  = Ok (mkDF (columns tasks_df)
             (filter (λ t, cell t "AssignedTo" = VStr user_name
                           ∨ cell t "AssignedTo"
                             ∈ get_subordinates user_name members_df)
                     (rows tasks_df))).
Proof.
  intros Hrole HA.
  assert (Hsel : select tasks_df
      (mask_or (eq_mask ((λ r, cell r "AssignedTo") <$> rows tasks_df)
                        (VStr user_name))
               (isin ((λ r, cell r "AssignedTo") <$> rows tasks_df)
                     (get_subordinates user_name members_df)))
    = mkDF (columns tasks_df)
           (filter (λ t, cell t "AssignedTo" = VStr user_name
                         ∨ cell t "AssignedTo"
                           ∈ get_subordinates user_name members_df)
                   (rows tasks_df))).
  { unfold select. f_equal. rewrite eq_mask_cells, isin_cells, mask_or_fmap.
    apply keep_mask. intros t. rewrite cell_eqb_VStr. unfold isin_val.
    destruct (decide (cell t "AssignedTo" = VStr user_name)) as [H1|H1];
    destruct (decide (cell t "AssignedTo" ∈ get_subordinates user_name members_df))
      as [H2|H2];
      repeat first [rewrite bool_decide_eq_true_2 by tauto
                   |rewrite bool_decide_eq_false_2 by tauto]; done. }
  unfold show_dashboard_view.
  destruct Hrole as [-> | ->]; simpl cell_eqb; cbv zeta;
    by rewrite (col_present _ _ HA), bind_Ok, Hsel.
Qed.

(** Whatever the role, a view that can be computed has the columns of the
    task table and a selection of its rows in their order; when it cannot,
    the exception is the [KeyError] of a missing Role or AssignedTo
    column. *)
Theorem show_dashboard_view_sublist user_name user_role tasks_df members_df :
  match show_dashboard_view user_name user_role tasks_df members_df with
  | Ok view_df =>
      columns view_df = columns tasks_df
      ∧ rows view_df `sublist_of` rows tasks_df
  | Raise e =>
      (e = KeyError "Role" ∧ "Role" ∉ columns tasks_df)
      ∨ (e = KeyError "AssignedTo" ∧ "AssignedTo" ∉ columns tasks_df)
  end.
Proof.
  unfold show_dashboard_view, col.
  repeat match goal with
         | |- context [if cell_eqb ?a ?b then _ else _] => destruct (cell_eqb a b)
         end;
    cbv zeta;
    match goal with
    | |- context [has_column tasks_df ?c] =>
        destruct (has_column tasks_df c) eqn:Hc;
          [rewrite bind_Ok; split; [done | apply keep_sublist]
          |apply bool_decide_eq_false in Hc; cbn; tauto]
    end.
Qed.

(** The update tab offers exactly what the user sees: for every role, the
    tasks on offer computed from the user's own view are that view (the
    second filter of line 440 never removes a row). *)
Theorem user_tasks_of_view user_name user_role tasks_df members_df view_df :
  show_dashboard_view user_name user_role tasks_df members_df = Ok view_df →
  user_tasks_of user_name user_role view_df = Ok view_df.
Proof.
  intros Hview. unfold user_tasks_of.
  destruct (cell_eqb user_role (VStr "Junior Head")) eqn:Hj; [|done].
  apply cell_eqb_eq in Hj as ->.
  destruct (decide ("AssignedTo" ∈ columns tasks_df)) as [HA|HA].
  - rewrite show_dashboard_view_own_tasks_aux in Hview by done.
    injection Hview as <-.
    rewrite col_present by done. rewrite bind_Ok, select_eq_str by done.
    cbn [columns rows]. by rewrite filter_idemp.
  - exfalso. revert Hview. unfold show_dashboard_view. simpl cell_eqb.
    by rewrite (col_absent _ _ HA).
Qed.

(** ** The "Add Task" tab *)

Lemma assignable_spec user_name user_role members_df :
  assignable user_name user_role members_df
  = if bool_decide (may_assign user_role)
    then Some (get_subordinates user_name members_df) else None.
Proof.
  unfold assignable, may_assign. rewrite !cell_eqb_VStr.
  destruct (decide (user_role = VStr "Core Head")) as [->|H1]; [done|].
  rewrite (bool_decide_eq_false_2 _ H1).
  destruct (decide (user_role = VStr "Domain Head")) as [->|H2]; [done|].
  rewrite (bool_decide_eq_false_2 _ H2).
  destruct (decide (user_role = VStr "Associate Head")) as [->|H3]; [done|].
  rewrite (bool_decide_eq_false_2 _ H3).
  rewrite bool_decide_eq_false_2; [done | tauto].
Qed.

Lemma assignee_role_of_member members_df a role :
  assignee_role_of members_df (VStr a) = Ok role →
  ∃ r, member_named members_df a = Some r ∧ role = cell r "Role".
Proof.
  unfold assignee_role_of.
  destruct (decide ("Name" ∈ columns members_df)) as [HN|HN];
    [|rewrite (col_absent _ _ HN); discriminate].
  rewrite (col_present _ _ HN), bind_Ok, select_eq_str by done.
  destruct (decide ("Role" ∈ columns members_df)) as [HR|HR];
    [|rewrite (col_absent (mkDF _ _) _ HR); discriminate].
  rewrite (col_present (mkDF _ _) _ HR), bind_Ok. cbn [rows].
  unfold member_named.
  destruct (filter _ (rows members_df)) as [|r rest]; [discriminate|].
  cbn. intros [= <-]. by exists r.
Qed.

Section AddTask.

Variable numeric_of_string : string → option Z.
Variable randint : nat → Z.

Lemma generate_unique_taskid_returned fuel tasks_df w new_id w' :
  generate_unique_taskid numeric_of_string randint fuel tasks_df w
  = Returned new_id w' →
  (new_id ∉ existing_ids_of numeric_of_string (task_id_cells tasks_df))
  ∧ ∃ k : nat, new_id = randint (draws w + k)%nat ∧ w' = drawn w (S k).
Proof.
  unfold generate_unique_taskid.
  destruct (empty tasks_df || negb (has_column tasks_df "TaskID")) eqn:E.
  - intros [= <- <-]. rewrite (task_id_cells_nil _ E).
    split; [apply existing_ids_nil|]. exists 0%nat. by rewrite Nat.add_0_r.
  - apply orb_false_iff in E as [_ HT]. apply negb_false_iff in HT.
    unfold task_id_cells, col. rewrite HT, run_lift_Ok.
    apply sample_until_new_returned.
Qed.

(** The workbook is never changed from the add tab by a user whose role is
    none of Core Head, Domain Head, Associate Head, nor when the task name
    is empty or whitespace only, however the run ends; in the second case
    no identifier is drawn either. *)
Theorem add_task_guarded fuel user_name user_role tasks_df members_df form w w' :
  ¬ may_assign user_role ∨ all_chars is_space (new_task_name form) = true →
  world_after (show_dashboard_add_task numeric_of_string randint fuel
                 user_name user_role tasks_df members_df form w) = Some w' →
  disk w' = disk w ∧ draws w' = draws w.
Proof.
  intros Hguard. unfold show_dashboard_add_task. rewrite assignable_spec.
  case_bool_decide as Hrole; [|rewrite run_st; by intros [= <-]].
  destruct Hguard as [?|Hblank]; [done|].
  destruct (get_subordinates user_name members_df) as [|s subordinates];
    [rewrite run_st; by intros [= <-]|].
  destruct (_ !! assignee_index form) as [new_assignee|]; [|by intros [= <-]].
  unfold add_task_submit. apply strip_blank_iff in Hblank. rewrite Hblank.
  rewrite run_st. by intros [= <-].
Qed.

(** A successful assignment. The assignee is one of the names
    [get_subordinates] returns for the user, whose role may assign; the
    task table grows by exactly one row, which carries a fresh identifier,
    the name as typed, the assignee, the Role cell of the member the
    assignee's name resolves to, Status "Not Started", the deadline and the
    priority chosen, and the description when the table has that column;
    the Tasks sheet holds the new table. *)
Theorem add_task_success
    fuel user_name user_role tasks_df members_df form w tasks_df' w' :
  show_dashboard_add_task numeric_of_string randint fuel
    user_name user_role tasks_df members_df form w
  = Returned (tasks_df', Some true) w' →
  ∃ new_assignee assignee_role new_id new_row,
    may_assign user_role
    ∧ get_subordinates user_name members_df !! assignee_index form
      = Some new_assignee
    ∧ assignee_role_of members_df new_assignee = Ok assignee_role
    ∧ (∀ a, new_assignee = VStr a →
            ∃ r, member_named members_df a = Some r
                 ∧ assignee_role = cell r "Role")
    ∧ all_chars is_space (new_task_name form) = false
    ∧ (new_id ∉ existing_ids_of numeric_of_string (task_id_cells tasks_df))
    ∧ (∃ k : nat, new_id = randint (draws w + k)%nat)
    ∧ rows tasks_df'
      = ((visible (columns tasks_df) <$> rows tasks_df) ++ [new_row])%list
    ∧ (∀ c, c ∈ columns tasks_df → c ∈ columns tasks_df')
    ∧ cell new_row "TaskID" = VInt new_id
    ∧ cell new_row "TaskName" = VStr (new_task_name form)
    ∧ cell new_row "AssignedTo" = new_assignee
    ∧ cell new_row "Role" = assignee_role
    ∧ cell new_row "Status" = VStr "Not Started"
    ∧ cell new_row "Deadline" = new_deadline form
    ∧ cell new_row "Priority" = VStr (priority_label (new_priority form))
    ∧ ("Description" ∈ columns tasks_df →
       cell new_row "Description" = VStr (task_description form))
    ∧ disk w' = Some (<["Tasks" := tasks_df']> (default ∅ (disk w))).
Proof.
  unfold show_dashboard_add_task. rewrite assignable_spec.
  case_bool_decide as Hrole; [|rewrite run_st; discriminate].
  destruct (get_subordinates user_name members_df) as [|s subordinates] eqn:Hsubs;
    [rewrite run_st; discriminate|].
  destruct (_ !! assignee_index form) as [new_assignee|] eqn:Hsel;
    [|discriminate].
  unfold add_task_submit.
  destruct (truthy (strip (new_task_name form))) eqn:Hname;
    [|rewrite run_st; discriminate].
  destruct (assignee_role_of members_df new_assignee) as [assignee_role|e]
    eqn:Hrole_of; [|discriminate].
  rewrite run_lift_Ok, run_bind.
  destruct (generate_unique_taskid _ _ _ _ _) as [new_id w1| |] eqn:Hgen;
    [|discriminate|discriminate].
  apply generate_unique_taskid_returned in Hgen as (Hfresh & k & Hid & ->).
  cbv zeta.
  set (base := [("TaskID", VInt new_id); ("TaskName", VStr (new_task_name form));
                ("AssignedTo", new_assignee); ("Role", assignee_role);
                ("Status", VStr "Not Started"); ("Deadline", new_deadline form);
                ("Priority", VStr (priority_label (new_priority form)))]).
  set (data := if has_column tasks_df "Description" then _ else base).
  rewrite run_bind.
  destruct (update_tasks_sheet _ _) as [[|] w2| |] eqn:Hsave;
    [| discriminate | discriminate | discriminate].
  apply update_tasks_sheet_saved in Hsave as [Hdisk Hui].
  rewrite !run_st, run_ret. intros [= <- <-].
  exists new_assignee, assignee_role, new_id, (visible (data.*1) (record data)).
  split; [done|]. split; [done|]. split; [done|].
  split. { intros a ->. by apply assignee_role_of_member. }
  split.
  { destruct (all_chars is_space (new_task_name form)) eqn:Hall; [|done].
    apply strip_blank_iff in Hall. congruence. }
  split; [done|]. split; [by exists k|].
  split; [done|].
  split. { intros c Hc. unfold pd_concat. cbn [columns]. apply elem_of_app. by left. }
  assert (Hkeys : ∀ c, c ∈ base.*1 → c ∈ data.*1).
  { intros c Hc. unfold data. destruct (has_column tasks_df "Description"); [|done].
    rewrite dict_set_keys_new; [by apply elem_of_app; left|].
    unfold base. cbn. intros H. repeat (apply elem_of_cons in H as [H|H]; [done|]).
    by apply elem_of_nil in H. }
  assert (Hcell : ∀ c, c ≠ "Description" →
            cell (record data) c = cell (record base) c).
  { intros c Hc. unfold data. destruct (has_column tasks_df "Description"); [|done].
    rewrite record_dict_set. by apply cell_insert_ne. }
  assert (Hbase : ∀ c, c ∈ base.*1 → c ≠ "Description" →
            cell (visible (data.*1) (record data)) c = cell (record base) c).
  { intros c Hc Hne. rewrite cell_visible_in by (by apply Hkeys). by apply Hcell. }
  do 7 (split; [by rewrite Hbase by (first [done | unfold base; cbn; in_list])|]).
  split; [|by rewrite Hdisk].
  intros HD. unfold data. rewrite has_column_true by done.
  rewrite cell_visible_in.
  - rewrite record_dict_set. apply cell_insert_eq.
  - rewrite dict_set_keys_new; [apply elem_of_app; right; in_list|].
    unfold base. cbn. intros H. repeat (apply elem_of_cons in H as [H|H]; [done|]).
    by apply elem_of_nil in H.
Qed.

End AddTask.

(** ** load_data *)








(** ** The login and registration pages *)



Section Pages.

Variable sha256_hexdigest : string → string.
Variable numeric_of_string : string → option Z.
Variable randint : nat → Z.






End Pages.

(** ** The task summary *)

Lemma count_true_cells (rs : list (gmap string value)) c s :
  count_true (eq_mask ((λ r, cell r c) <$> rs) (VStr s))
  = length (filter (λ r, cell r c = VStr s) rs).
Proof.
  unfold count_true. rewrite eq_mask_cells.
  induction rs as [|r rs IH]; [done|].
  rewrite fmap_cons, !filter_cons, cell_eqb_VStr.
  destruct (decide (cell r c = VStr s)) as [H|H].
  - rewrite bool_decide_eq_true_2 by done.
    destruct (decide (true = true)); [|done]. cbn. by rewrite IH.
  - rewrite bool_decide_eq_false_2 by done.
    destruct (decide (false = true)); [done|]. by rewrite IH.
Qed.

Lemma status_counts (rs : list (gmap string value)) :
  let count s := length (filter (λ r, cell r "Status" = VStr s) rs) in
  (count "Done" + count "In Progress" + count "Not Started" ≤ length rs)%nat
  ∧ ((count "Done" + count "In Progress" + count "Not Started")%nat = length rs
     ↔ ∀ t, t ∈ rs →
            cell t "Status" ∈ [VStr "Done"; VStr "In Progress"; VStr "Not Started"]).
Proof.
  cbv zeta. induction rs as [|r rs [IHle IHeq]].
  - split; [done|]. split; [intros _ t Ht; by apply elem_of_nil in Ht | done].
  - rewrite !filter_cons.
    set (a := length (filter (λ r0, cell r0 "Status" = VStr "Done") rs)) in *.
    set (b := length (filter (λ r0, cell r0 "Status" = VStr "In Progress") rs)) in *.
    set (c := length (filter (λ r0, cell r0 "Status" = VStr "Not Started") rs)) in *.
    assert (Hstep : ∀ s, cell r "Status" = VStr s →
              s = "Done" ∨ s = "In Progress" ∨ s = "Not Started" →
              ((a + b + c)%nat = length rs
               ↔ ∀ t, t ∈ r :: rs →
                   cell t "Status"
                   ∈ [VStr "Done"; VStr "In Progress"; VStr "Not Started"])).
    { intros s Hs Hone. rewrite IHeq. split.
      - intros Hall t [->|Ht]%elem_of_cons; [|by apply Hall].
        rewrite Hs. destruct Hone as [->|[->| ->]]; in_list.
      - intros Hall t Ht. apply Hall. by right. }
    destruct (decide (cell r "Status" = VStr "Done")) as [H1|H1];
    destruct (decide (cell r "Status" = VStr "In Progress")) as [H2|H2];
    destruct (decide (cell r "Status" = VStr "Not Started")) as [H3|H3];
      try congruence; cbn [length]; fold a b c.
    + split; [lia|]. rewrite <- (Hstep "Done") by auto. lia.
    + split; [lia|]. rewrite <- (Hstep "In Progress") by auto. lia.
    + split; [lia|]. rewrite <- (Hstep "Not Started") by auto. lia.
    + split; [lia|]. split; [lia|].
      intros Hall. exfalso.
      assert (Hr : cell r "Status"
                   ∈ [VStr "Done"; VStr "In Progress"; VStr "Not Started"])
        by (apply Hall; left).
      repeat (apply elem_of_cons in Hr as [Hr|Hr]; [done|]).
      by apply elem_of_nil in Hr.
Qed.

(** The figures of the summary: the total is the number of tasks in view,
    and completed, in progress and not started together never exceed it;
    they add up to it exactly when every task in view has one of the three
    statuses (a placeholder task, whose status is "-", is counted in the
    total only). *)
Theorem task_summary_counts view_df total completed in_progress not_started :
  task_summary view_df = Ok (Some (total, completed, in_progress, not_started)) →
  total = length (rows view_df)
  ∧ (completed + in_progress + not_started ≤ total)%nat
  ∧ ((completed + in_progress + not_started)%nat = total
     ↔ ∀ t, t ∈ rows view_df →
            cell t "Status" ∈ [VStr "Done"; VStr "In Progress"; VStr "Not Started"]).
Proof.
  unfold task_summary. destruct (negb (empty view_df)); [|discriminate].
  cbv zeta. unfold col. destruct (has_column view_df "Status"); [|discriminate].
  rewrite !bind_Ok, !count_true_cells. intros [= <- <- <- <-].
  split; [done|]. apply status_counts.
Qed.

(** ** The further properties on the sample tables *)

Lemma get_subordinates_associate_head_witness :
  get_subordinates "Ivy" reporting_members = [VStr "Jo"]
  ∧ get_subordinates "Eli" domain_members = [].
Proof.
  split.
  - refine (eq_trans
      (proj1 (get_subordinates_associate_head reporting_members "Ivy"
                (record [("Name", VStr "Ivy"); ("Role", VStr "Associate Head")])
                _ _ _ _) _) _).
    + compute_done.
    + compute_done.
    + vm_compute. reflexivity.
    + vm_compute. reflexivity.
    + compute_done.
    + vm_compute. reflexivity.
  - refine (eq_trans
      (proj2 (get_subordinates_associate_head domain_members "Eli"
                (record [("Name", VStr "Eli"); ("Role", VStr "Associate Head")])
                _ _ _ _) _) _).
    + compute_done.
    + compute_done.
    + vm_compute. reflexivity.
    + vm_compute. reflexivity.
    + compute_done.
    + vm_compute. reflexivity.
Defined.


Lemma authenticate_user_sound_witness :
  Some "Bob" = Some "Bob"
  ∧ empty legacy_members = false
  ∧ ∃ r, member_named legacy_members "Bob" = Some r ∧ r ∈ rows legacy_members
       ∧ Some (VStr "Junior Head") = Some (cell r "Role").
Proof.
  apply (authenticate_user_sound toy_digest legacy_members "Bob" "password123").
  vm_compute. reflexivity.
Defined.

Lemma generate_unique_taskid_safe_witness :
  (∀ new_id w',
     generate_unique_taskid (λ _, None) cycling_randint 10 club_tasks club_world
     = Returned new_id w' →
     (100000 ≤ new_id ≤ 999999)%Z
     ∧ (new_id ∉ existing_ids_of (λ _, None) (task_id_cells club_tasks))
     ∧ (VInt new_id ∉ task_id_cells club_tasks)
     ∧ ∃ k : nat, w' = drawn club_world (S k))
  ∧ (∀ e w',
     generate_unique_taskid (λ _, None) cycling_randint 10 club_tasks club_world
     ≠ Raised e w').
Proof.
  apply (generate_unique_taskid_safe (λ _, None) cycling_randint 10
           club_tasks club_world).
  apply cycling_randint_range.
Defined.



Lemma register_user_success_witness :
  io_error legacy_world = None
  ∧ (empty legacy_members = false →
     ∀ m, m ∈ rows legacy_members → cell m "Name" ≠ VStr "Alice")
  ∧ ∃ new_id placeholder,
      disk signup_world
      = Some (<["Members" := members_after_signup]>
                (<["Tasks" := mkDF (columns (tasks_on_disk legacy_world))
                                ((visible (columns (tasks_on_disk legacy_world))
                                    <$> rows (tasks_on_disk legacy_world))
                                 ++ [placeholder])%list]> ∅))
      ∧ (∀ c, c ∈ columns (tasks_on_disk legacy_world) →
              cell placeholder c = placeholder_cell "Alice" "Core Head" new_id c)
      ∧ (new_id ∉ existing_ids_of (λ _, None)
                    (task_id_cells (tasks_on_disk legacy_world))).
Proof.
  apply (register_user_success toy_digest (λ _, None) cycling_randint
           10 "Alice" "secret" "Core Head" legacy_members legacy_world
           "Registration successful! You can now log in." signup_world).
  vm_compute. reflexivity.
Defined.


Lemma update_form_options_spec_witness :
  update_form_options "Carol" (VStr "Junior Head") carol_view
  = Ok (Some [VInt 100002]).
Proof.
  refine (eq_trans (update_form_options_spec "Carol" (VStr "Junior Head")
                      carol_view carol_view _) _).
  - vm_compute. reflexivity.
  - vm_compute. reflexivity.
Defined.

Lemma delete_task_guarded_witness :
  disk (returned_world
          (show_dashboard_delete_task (VStr "Junior Head") carol_view club_tasks
             (mkDelete 0 true) club_world) club_world)
  = disk club_world.
Proof.
  apply (delete_task_guarded (VStr "Junior Head") carol_view club_tasks
           (mkDelete 0 true) club_world).
  - left. unfold may_delete. intros [H|H]; discriminate H.
  - vm_compute. reflexivity.
Defined.

Lemma delete_task_success_witness :
  ∃ task_to_delete,
    ids_of alice_view !! 0 = Some task_to_delete
    ∧ task_to_delete ≠ VNaN
    ∧ may_delete (VStr "Core Head") ∧ true = true
    ∧ columns (returned_value budget_delete_run (club_tasks, None)).1
      = columns club_tasks
    ∧ rows (returned_value budget_delete_run (club_tasks, None)).1
      = filter (λ t, cell t "TaskID" ≠ task_to_delete) (rows club_tasks)
    ∧ disk (returned_world budget_delete_run club_world)
      = Some (<["Tasks" := (returned_value budget_delete_run (club_tasks, None)).1]>
                (default ∅ (disk club_world))).
Proof.
  apply (delete_task_success (VStr "Core Head") alice_view club_tasks
           (mkDelete 0 true) club_world).
  vm_compute. reflexivity.
Defined.

Lemma update_status_done_recorded_witness :
  ∃ options task_to_update,
    update_form_options "Carol" (VStr "Junior Head") carol_view = Ok (Some options)
    ∧ options !! 0 = Some task_to_update
    ∧ all_chars is_space "shipped" = false
    ∧ disk (returned_world shipped_run club_world)
      = Some (<["Tasks" := (returned_value shipped_run (club_tasks, None)).1]>
                (default ∅ (disk club_world)))
    ∧ length (rows (returned_value shipped_run (club_tasks, None)).1)
      = length (rows club_tasks)
    ∧ ∀ i t, rows club_tasks !! i = Some t →
        ∃ t', rows (returned_value shipped_run (club_tasks, None)).1 !! i = Some t'
          ∧ (∀ c, c ≠ "Status" → c ≠ "Description" → t' !! c = t !! c)
          ∧ (cell t "TaskID" = task_to_update →
             cell t' "Status" = VStr "Done"
             ∧ cell t' "Description" = VStr "shipped")
          ∧ (cell t "TaskID" ≠ task_to_update →
             ∀ c, c ∈ columns club_tasks → cell t' c = cell t c).
Proof.
  apply (update_status_done_recorded "Carol" (VStr "Junior Head") carol_view
           club_tasks (mkForm 0 Done "shipped") club_world).
  - reflexivity.
  - vm_compute. reflexivity.
Defined.

Lemma show_dashboard_view_own_tasks_witness :
  show_dashboard_view "Carol" (VStr "Junior Head") club_tasks club_members
  = Ok (mkDF (columns club_tasks)
             (filter (λ t, cell t "AssignedTo" = VStr "Carol") (rows club_tasks))).
Proof.
  apply (show_dashboard_view_own_tasks "Carol" (VStr "Junior Head")
           club_tasks club_members).
  - unfold may_assign. intros [H|[H|H]]; discriminate H.
  - compute_done.
Defined.

Lemma show_dashboard_view_heads_witness :
  show_dashboard_view "Ivy" (VStr "Associate Head") club_tasks reporting_members
  = Ok (mkDF (columns club_tasks)
             (filter (λ t, cell t "AssignedTo" = VStr "Ivy"
                           ∨ cell t "AssignedTo"
                             ∈ get_subordinates "Ivy" reporting_members)
                     (rows club_tasks))).
Proof.
  apply (show_dashboard_view_heads "Ivy" (VStr "Associate Head")
           club_tasks reporting_members).
  - by right.
  - compute_done.
Defined.

Lemma user_tasks_of_view_witness :
  user_tasks_of "Carol" (VStr "Junior Head") carol_view = Ok carol_view.
Proof.
  apply (user_tasks_of_view "Carol" (VStr "Junior Head") club_tasks club_members).
  vm_compute. reflexivity.
Defined.

Lemma add_task_guarded_witness :
  disk (returned_world
          (show_dashboard_add_task (λ _, None) cycling_randint 10
             "Carol" (VStr "Junior Head") club_tasks club_members agenda_form
             club_world) club_world) = disk club_world
  ∧ draws (returned_world
          (show_dashboard_add_task (λ _, None) cycling_randint 10
             "Carol" (VStr "Junior Head") club_tasks club_members agenda_form
             club_world) club_world) = draws club_world.
Proof.
  apply (add_task_guarded (λ _, None) cycling_randint 10
           "Carol" (VStr "Junior Head") club_tasks club_members agenda_form
           club_world).
  - left. unfold may_assign. intros [H|[H|H]]; discriminate H.
  - vm_compute. reflexivity.
Defined.

Lemma add_task_success_witness :
  ∃ new_id new_row,
    rows (returned_value agenda_run (club_tasks, None)).1
    = ((visible (columns club_tasks) <$> rows club_tasks) ++ [new_row])%list
    ∧ (new_id ∉ existing_ids_of (λ _, None) (task_id_cells club_tasks))
    ∧ cell new_row "TaskID" = VInt new_id
    ∧ cell new_row "AssignedTo" = VStr "Bob"
    ∧ cell new_row "Role" = VStr "Domain Head"
    ∧ cell new_row "Status" = VStr "Not Started"
    ∧ cell new_row "Description" = VStr "Write them up".
Proof.
  destruct (add_task_success (λ _, None) cycling_randint 10
              "Alice" (VStr "Core Head") club_tasks club_members agenda_form
              club_world (returned_value agenda_run (club_tasks, None)).1
              (returned_world agenda_run club_world))
    as (new_assignee & assignee_role & new_id & new_row & _ & Hsel & Hrole & _
        & _ & Hfresh & _ & Hrows & _ & Hc1 & _ & Hc3 & Hc4 & Hc5 & _ & _
        & Hc8 & _).
  - vm_compute. reflexivity.
  - assert (Hbob : new_assignee = VStr "Bob").
    { assert (Hsubs : get_subordinates "Alice" club_members
                      = [VStr "Alice"; VStr "Bob"]) by (vm_compute; reflexivity).
      rewrite Hsubs in Hsel. by injection Hsel as <-. }
    rewrite Hbob in Hrole, Hc3.
    assert (Hdomain : assignee_role_of club_members (VStr "Bob")
                      = Ok (VStr "Domain Head")) by (vm_compute; reflexivity).
    rewrite Hdomain in Hrole. injection Hrole as <-.
    exists new_id, new_row. repeat (split; [done|]). apply Hc8. compute_done.
Defined.




Lemma task_summary_counts_witness :
  1%nat = length (rows signup_tasks)
  ∧ (0 + 0 + 0 ≤ 1)%nat
  ∧ ((0 + 0 + 0)%nat = 1%nat
     ↔ ∀ t, t ∈ rows signup_tasks →
            cell t "Status" ∈ [VStr "Done"; VStr "In Progress"; VStr "Not Started"]).
Proof.
  apply (task_summary_counts signup_tasks 1 0 0 0).
  vm_compute. reflexivity.
Defined.
